(** * mosaicolabs.models.query: the package initialiser

    The source file [mosaicolabs/models/query/__init__.py] consists of two
    relative from-imports,

      from .builders import (QueryTopic as QueryTopic, ...)
      from .response import (QueryResponseItemSequence as ..., ...)

    Its behaviour is the behaviour of Python's import statement on the
    package namespace.  The statement is embedded as a computation in a
    state-and-error monad over that namespace and the module cache
    [sys.modules].  The two submodules are not part of the source: what
    executing one of them does, to the state and as its result, enters
    through a loader. *)

From Stdlib Require Import Ascii.
From stdpp Require Import base strings gmap list.

(** ** Objects, namespaces, modules *)

(** Python compares the re-exported classes by identity ([is]); an object
    is represented by its address. *)
Definition loc := positive.
Bind Scope positive_scope with loc.

(** The object [None]. *)
Definition Py_None : loc := 1.

(** A namespace ([module.__dict__]) binds names to objects. *)
Abbreviation namespace := (gmap string loc).

(** A loaded module: the module object and its namespace. *)
Record py_module := PyModule { mod_id : loc; mod_dict : namespace }.

(** The exceptions an import statement can end in. *)
Inductive exn :=
  | ModuleNotFoundError (fullname : string)
      (* No module named 'fullname'; import of 'fullname' halted *)
  | ImportError (name : string) (fullname : string)
      (* cannot import name 'name' from 'fullname' *)
  | Raised (e : loc).
      (* any exception object raised while a submodule body runs *)

(** The state the initialiser runs in: its own global namespace, which is
    the namespace of the package, and the interpreter's module cache.  An
    entry of the cache is a module or [None]. *)
Record state := State {
  globals : namespace;
  sys_modules : gmap string (option py_module)
}.

(** Finding and executing a module that is not cached.  The body of the
    module runs in the interpreter: it can import further modules and bind
    names on the package, and it ends in an exception or in the module.
    What it did to the state stays, also when it raises. *)
Abbreviation loader := (string → state → state * (exn + py_module)).

(** ** The monad: state that survives an exception *)

(** A raised exception keeps the bindings made before it, as in Python. *)
Definition M (A : Type) : Type := state → state * (exn + A).

#[global] Instance M_ret : MRet M := λ A a st, (st, inr a).

#[global] Instance M_bind : MBind M := λ A B k c st,
  match c st with
  | (st', inr a) => k a st'
  | (st', inl e) => (st', inl e)
  end.

Definition raise {A} (e : exn) : M A := λ st, (st, inl e).
Definition get : M state := λ st, (st, inr st).
Definition modify (f : state → state) : M unit := λ st, (f st, inr tt).

(** ** The import statement *)

(** [__package__] of the initialiser, from its path under [src/]. *)
Definition package : string := "mosaicolabs.models.query".

(** A relative module name with one leading dot is resolved against the
    package. *)
Definition resolve_name (name : string) : string := package +:+ "." +:+ name.

(** [sys.modules[fullname] = m] *)
Definition cache (fullname : string) (m : py_module) (st : state) : state :=
  State (globals st) (<[fullname := Some m]> (sys_modules st)).

(** [del sys.modules[fullname]], ignoring a missing key. *)
Definition uncache (fullname : string) (st : state) : state :=
  State (globals st) (delete fullname (sys_modules st)).

(** [STORE_NAME]: bind [name] in the global namespace.  The import system
    uses the same operation when it sets a freshly loaded submodule as an
    attribute of its parent package, because the package's attributes are
    the initialiser's globals. *)
Definition store_name (name : string) (v : loc) : M unit :=
  modify (λ st, State (<[name := v]> (globals st)) (sys_modules st)).

(** Loading a module that is not in the cache: its body runs; when it
    raises, the module's own cache entry is removed and the exception
    propagates; otherwise the module, as the interpreter holds it once the
    body has run, is entered in the cache under its name. *)
Definition load (L : loader) (fullname : string) : M py_module := λ st,
  match L fullname st with
  | (st', inl e) => (uncache fullname st', inl e)
  | (st', inr m) => (cache fullname m st', inr m)
  end.

(** [IMPORT_NAME] with a relative name.  A cached module is returned as
    it is, a cached [None] halts the import; otherwise the module is
    loaded and then set as an attribute of the parent package. *)
Definition import_module (L : loader) (child : string) : M py_module :=
  st ← get;
  match sys_modules st !! resolve_name child with
  | Some (Some m) => mret m
  | Some None => raise (ModuleNotFoundError (resolve_name child))
  | None =>
      m ← load L (resolve_name child);
      store_name child (mod_id m);;
      mret m
  end.

(** [IMPORT_FROM]: read attribute [name] of the module; when the module
    has no such attribute, fall back on the cache entry of
    [fullname.name], which may be a module or [None]; only when there is
    no such entry either, raise.  The submodules are plain modules
    ([builders.py], [response.py]) without a module-level [__getattr__],
    so an attribute is an entry of the module's namespace and the
    from-list is not first imported as submodules. *)
Definition import_attr (child : string) (m : py_module) (name : string) : M loc :=
  match mod_dict m !! name with
  | Some v => mret v
  | None =>
      st ← get;
      match sys_modules st !! (resolve_name child +:+ "." +:+ name) with
      | Some (Some sub) => mret (mod_id sub)
      | Some None => mret Py_None
      | None => raise (ImportError name (resolve_name child))
      end
  end.

(** The parenthesised list [name as asname, ...], left to right. *)
Fixpoint import_names (child : string) (m : py_module)
    (names : list (string * string)) : M unit :=
  match names with
  | [] => mret tt
  | (name, asname) :: rest =>
      v ← import_attr child m name;
      store_name asname v;;
      import_names child m rest
  end.

(** [from .child import (names)] *)
Definition from_import (L : loader) (child : string)
    (names : list (string * string)) : M unit :=
  m ← import_module L child;
  import_names child m names.

(** ** The source file *)

(** Lines 1-6. *)
Definition builders_imports : list (string * string) :=
  [ ("QueryTopic", "QueryTopic");
    ("QuerySequence", "QuerySequence");
    ("QueryOntologyCatalog", "QueryOntologyCatalog");
    ("Query", "Query") ].

(** Lines 8-14. *)
Definition response_imports : list (string * string) :=
  [ ("QueryResponseItemSequence", "QueryResponseItemSequence");
    ("QueryResponseItemTopic", "QueryResponseItemTopic");
    ("TimestampRange", "TimestampRange");
    ("QueryResponseItem", "QueryResponseItem");
    ("QueryResponse", "QueryResponse") ].

(** The module body. *)
Definition __init__ (L : loader) : M unit :=
  from_import L "builders" builders_imports;;
  from_import L "response" response_imports.

(** ** Wildcard import of the package *)

(** A name is public when it does not begin with an underscore. *)
Definition is_public (name : string) : bool :=
  match name with
  | String "_"%char _ => false
  | _ => true
  end.

(** The public names of a namespace. *)
Definition exposed (ns : namespace) : gset string :=
  filter (λ k, is_public k = true) (dom ns).

(** [from package import *] when the module has no [__all__]: every
    public binding.  With [__all__] the export list is the value of that
    object, which the model does not hold. *)
Definition import_star (ns : namespace) : option namespace :=
  match ns !! "__all__" with
  | Some _ => None
  | None => Some (filter (λ kv, is_public kv.1 = true) ns)
  end.

(** ** The specification's table *)

(** The nine names of the external interface, in the table's order. *)
Definition listed_names : list string :=
  [ "QueryTopic"; "QuerySequence"; "QueryOntologyCatalog"; "Query";
    "QueryResponseItemSequence"; "QueryResponseItemTopic"; "TimestampRange";
    "QueryResponseItem"; "QueryResponse" ].

(** The table's second column. *)
Definition origin (name : string) : option string :=
  if decide (name ∈ ["QueryTopic"; "QuerySequence"; "QueryOntologyCatalog";
                     "Query"])
  then Some "builders"
  else if decide (name ∈ ["QueryResponseItemSequence";
                          "QueryResponseItemTopic"; "TimestampRange";
                          "QueryResponseItem"; "QueryResponse"])
  then Some "response"
  else None.

(** The names the table attributes to a submodule. *)
Definition names_of (child : string) : list string :=
  filter (λ n, origin n = Some child) listed_names.

(** The same symbol imported directly from its origin submodule:
    [from mosaicolabs.models.query.child import name], yielding the
    object the importer would bind. *)
Definition import_direct (L : loader) (child name : string) : M loc :=
  m ← import_module L child;
  import_attr child m name.

(** ** What is assumed of the submodules *)

(** Executing a module leaves the binding of [k] on the package alone. *)
Definition keeps (L : loader) (k : string) : Prop :=
  ∀ f st, globals (L f st).1 !! k = globals st !! k.

(** Executing a module does not bind, rebind or unbind any of the nine
    re-exported names on the package. *)
Definition keeps_listed (L : loader) : Prop :=
  ∀ k, k ∈ listed_names → keeps L k.

(** Executing a module leaves the cache entry [fullname] alone. *)
Definition keeps_entry (L : loader) (fullname : string) : Prop :=
  ∀ f st, sys_modules (L f st).1 !! fullname = sys_modules st !! fullname.

(** Executing a module only adds entries to the cache: the modules it
    imports.  No entry is removed or replaced. *)
Definition cache_grows (L : loader) : Prop :=
  ∀ f st, sys_modules st ⊆ sys_modules (L f st).1.

(** Package namespace and cache agree on the two submodules: one that is
    cached is bound on the package, as the import system leaves it.  This
    holds in particular when neither is cached. *)
Definition agree (st : state) : Prop :=
  ∀ c m, c = "builders" ∨ c = "response" →
         sys_modules st !! resolve_name c = Some (Some m) →
         globals st !! c = Some (mod_id m).

(** Executing a module keeps namespace and cache in agreement. *)
Definition keeps_agreement (L : loader) : Prop :=
  ∀ f st, agree st → agree (L f st).1.

(** ** Pure descriptions of a run *)

(** What [IMPORT_FROM] yields for [name] on module [m] with cache [sm]. *)
Definition attr_of (sm : gmap string (option py_module)) (child : string)
    (m : py_module) (name : string) : option loc :=
  match mod_dict m !! name with
  | Some v => Some v
  | None =>
      match sm !! (resolve_name child +:+ "." +:+ name) with
      | Some (Some sub) => Some (mod_id sub)
      | Some None => Some Py_None
      | None => None
      end
  end.

(** The namespace after the import list has run as far as it gets. *)
Fixpoint bound (sm : gmap string (option py_module)) (child : string)
    (m : py_module) (names : list (string * string))
    (g : namespace) : namespace :=
  match names with
  | [] => g
  | (name, asname) :: rest =>
      match attr_of sm child m name with
      | Some v => bound sm child m rest (<[asname := v]> g)
      | None => g
      end
  end.

(** The first name of the list that cannot be imported. *)
Fixpoint first_missing (sm : gmap string (option py_module)) (child : string)
    (m : py_module) (names : list (string * string)) : option string :=
  match names with
  | [] => None
  | (name, _) :: rest =>
      match attr_of sm child m name with
      | Some _ => first_missing sm child m rest
      | None => Some name
      end
  end.

(** The state after the import list of [from .child import (names)] has
    run on module [m]. *)
Definition names_bound (child : string) (m : py_module)
    (names : list (string * string)) (st : state) : state :=
  State (bound (sys_modules st) child m names (globals st)) (sys_modules st).

(** The module defines every one of the names. *)
Definition defines (m : py_module) (names : list string) : Prop :=
  Forall (λ n, is_Some (mod_dict m !! n)) names.

(** The module defines every one of the names as an object other than
    [None]. *)
Definition provides (m : py_module) (names : list string) : Prop :=
  Forall (λ n, ∃ v, mod_dict m !! n = Some v ∧ v ≠ Py_None) names.

(** The module obtained for a submodule of the table. *)
Definition pick (mb mr : py_module) (child : string) : py_module :=
  if decide (child = "builders") then mb else mr.

(** ** Concrete interpreters *)

Module Example.

(** An address base not in use yet: it grows with the namespace and the
    cache, so that a module executed again later gets other objects. *)
Definition fresh (st : state) : loc :=
  (Pos.of_succ_nat (size (globals st) + size (sys_modules st)) * 100)%positive.

(** [from . import expressions] in the body of a submodule: a sibling that
    is not in the cache is loaded, cached and bound on the package. *)
Definition import_sibling (st : state) : state :=
  match sys_modules st !! resolve_name "expressions" with
  | Some _ => st
  | None =>
      State (<["expressions" := (fresh st + 9)%positive]> (globals st))
            (<[resolve_name "expressions"
                 := Some (PyModule (fresh st + 9)%positive ∅)]>
               (sys_modules st))
  end.

Definition builders_at (a : loc) : py_module :=
  PyModule a (list_to_map
    [ ("QueryTopic", a + 1); ("QuerySequence", a + 2);
      ("QueryOntologyCatalog", a + 3); ("Query", a + 4);
      ("_helper", a + 5) ])%positive.

Definition response_at (a : loc) : py_module :=
  PyModule a (list_to_map
    [ ("QueryResponseItemSequence", a + 1); ("QueryResponseItemTopic", a + 2);
      ("TimestampRange", a + 3); ("QueryResponseItem", a + 4);
      ("QueryResponse", a + 5) ])%positive.

(** [builders] with [QueryOntologyCatalog] renamed to [OntologyCatalog]. *)
Definition builders_partial_at (a : loc) : py_module :=
  PyModule a (list_to_map
    [ ("QueryTopic", a + 1); ("QuerySequence", a + 2);
      ("OntologyCatalog", a + 3); ("Query", a + 4) ])%positive.

(** [response] with [QueryResponseItem] renamed to [ResponseItem]. *)
Definition response_renamed_at (a : loc) : py_module :=
  PyModule a (list_to_map
    [ ("QueryResponseItemSequence", a + 1); ("QueryResponseItemTopic", a + 2);
      ("TimestampRange", a + 3); ("ResponseItem", a + 4);
      ("QueryResponse", a + 5) ])%positive.

(** The bodies of the two submodules.  [builders] imports a sibling before
    it defines its classes. *)
Definition builders_body (st : state) : state * (exn + py_module) :=
  (import_sibling st, inr (builders_at (fresh (import_sibling st)))).

Definition response_body (st : state) : state * (exn + py_module) :=
  (st, inr (response_at (fresh st))).

Definition builders_partial_body (st : state) : state * (exn + py_module) :=
  (import_sibling st, inr (builders_partial_at (fresh (import_sibling st)))).

Definition response_renamed_body (st : state) : state * (exn + py_module) :=
  (st, inr (response_renamed_at (fresh st))).

(** [builders] raises after it has imported the sibling. *)
Definition builders_raises (st : state) : state * (exn + py_module) :=
  (import_sibling st, inl (Raised 99)).

(** There is no such file. *)
Definition absent (child : string) (st : state) : state * (exn + py_module) :=
  (st, inl (ModuleNotFoundError (resolve_name child))).

(** An interpreter that finds the two submodules with the given bodies and
    nothing else. *)
Definition submodules (builders response : state → state * (exn + py_module))
    : loader := λ fullname st,
  if decide (fullname = resolve_name "builders") then builders st
  else if decide (fullname = resolve_name "response") then response st
  else (st, inl (ModuleNotFoundError fullname)).

Definition L : loader := submodules builders_body response_body.
Definition L_renamed : loader := submodules builders_body response_renamed_body.
Definition L_partial : loader := submodules builders_partial_body response_body.
Definition L_broken : loader := submodules builders_raises response_body.
Definition L_no_response : loader := submodules builders_body (absent "response").
Definition L_nothing : loader := submodules (absent "builders") (absent "response").

(** The namespace of a package module before its body runs, and a cache
    that holds neither submodule. *)
Definition st0 : state :=
  State (list_to_map
           [ ("__name__", 11); ("__package__", 12); ("__path__", 13);
             ("__file__", 14); ("__spec__", 15); ("__loader__", 16);
             ("__doc__", 17); ("__builtins__", 18) ]%positive)
        ∅.

(** A fresh package namespace in an interpreter whose cache already holds
    both submodules, as after an earlier import of the package that was
    dropped from the cache. *)
Definition st_cached : state :=
  State (globals st0)
        (<[resolve_name "builders" := Some (builders_at 200)]>
           (<[resolve_name "response" := Some (response_at 300)]> ∅)).

(** A fresh package namespace in an interpreter whose cache holds a module
    under the name [response.QueryResponseItem]. *)
Definition st_fallback : state :=
  State (globals st0)
        (<[resolve_name "response" +:+ ".QueryResponseItem"
             := Some (PyModule 77 ∅)]> ∅).

(** The bodies above do nothing to the state or import the sibling. *)
Definition tame (body : state → state * (exn + py_module)) : Prop :=
  ∀ st, (body st).1 = st ∨ (body st).1 = import_sibling st.

End Example.

Example run_ok : (__init__ Example.L Example.st0).2 = inr tt.
Proof. vm_compute. reflexivity. Qed.

Example run_ok_names :
  (λ n, globals (__init__ Example.L Example.st0).1 !! n)
    <$> ["Query"; "QueryResponse"; "builders"; "response"; "expressions";
         "_helper"]
  = [Some 1104; Some 1705; Some 1100; Some 1700; Some 909; None]%positive.
Proof. vm_compute. reflexivity. Qed.

Example run_renamed :
  (__init__ Example.L_renamed Example.st0).2
  = inl (ImportError "QueryResponseItem" "mosaicolabs.models.query.response").
Proof. vm_compute. reflexivity. Qed.

Example run_renamed_fallback :
  (__init__ Example.L_renamed Example.st_fallback).2 = inr tt ∧
  globals (__init__ Example.L_renamed Example.st_fallback).1
    !! "QueryResponseItem" = Some 77%positive.
Proof. vm_compute. split; reflexivity. Qed.

Example run_broken :
  (__init__ Example.L_broken Example.st0).2 = inl (Raised 99) ∧
  dom (sys_modules (__init__ Example.L_broken Example.st0).1)
  = {[ resolve_name "expressions" ]}.
Proof. split; [vm_compute; reflexivity|]. compute_done. Qed.

Example run_cached :
  (__init__ Example.L_nothing Example.st_cached).2 = inr tt ∧
  globals (__init__ Example.L_nothing Example.st_cached).1 !! "builders" = None.
Proof. vm_compute. split; reflexivity. Qed.

(** ** Reading attributes and running an import list *)

Section ImportNames.
Context (child : string) (m : py_module).
Implicit Types (sm : gmap string (option py_module)).
Implicit Types (names : list (string * string)) (g : namespace) (st : state).

Lemma import_attr_run name st :
  import_attr child m name st =
    (st, match attr_of (sys_modules st) child m name with
         | Some v => inr v
         | None => inl (ImportError name (resolve_name child))
         end).
Proof.
  unfold import_attr, attr_of.
  destruct (mod_dict m !! name) as [v|]; [reflexivity|].
  unfold mbind, M_bind, get.
  destruct (sys_modules st !! (resolve_name child +:+ "." +:+ name))
    as [[sub|]|]; reflexivity.
Qed.

Lemma import_names_run names st :
  import_names child m names st =
    (names_bound child m names st,
     match first_missing (sys_modules st) child m names with
     | None => inr tt
     | Some n => inl (ImportError n (resolve_name child))
     end).
Proof.
  revert st. induction names as [|[n a] rest IH]; intros [g sm].
  - reflexivity.
  - cbn [import_names]. unfold mbind at 1, M_bind at 1.
    rewrite import_attr_run. unfold names_bound. cbn [sys_modules globals].
    cbn [bound first_missing].
    destruct (attr_of sm child m n) as [v|]; [|reflexivity].
    unfold mbind, M_bind, store_name, modify. rewrite IH. reflexivity.
Qed.

Lemma attr_of_defined sm name v :
  mod_dict m !! name = Some v → attr_of sm child m name = Some v.
Proof. intros H. unfold attr_of. by rewrite H. Qed.

Lemma attr_of_None sm name :
  attr_of sm child m name = None ↔
  mod_dict m !! name = None ∧
  sm !! (resolve_name child +:+ "." +:+ name) = None.
Proof.
  unfold attr_of. destruct (mod_dict m !! name); [naive_solver|].
  destruct (sm !! _) as [[?|]|]; naive_solver.
Qed.

(** A larger cache yields the same object where the smaller one yields
    one. *)
Lemma attr_of_mono sm sm' name v :
  sm ⊆ sm' → attr_of sm child m name = Some v →
  attr_of sm' child m name = Some v.
Proof.
  intros Hsub. unfold attr_of. destruct (mod_dict m !! name); [done|].
  destruct (sm !! _) as [x|] eqn:E; [|done].
  by rewrite (lookup_weaken _ _ _ _ E Hsub).
Qed.

Lemma first_missing_None sm names :
  first_missing sm child m names = None ↔
  Forall (λ p, is_Some (attr_of sm child m p.1)) names.
Proof.
  induction names as [|[n a] rest IH]; simpl.
  - split; [constructor | reflexivity].
  - destruct (attr_of sm child m n) as [v|] eqn:E.
    + rewrite IH. split.
      * intros H. constructor; [simpl; rewrite E; eauto | exact H].
      * intros H. by inversion H.
    + split; [discriminate|]. intros H. inversion H as [|? ? [v Hv] _]; subst.
      simpl in Hv. congruence.
Qed.

Lemma first_missing_Some sm names n :
  first_missing sm child m names = Some n →
  n ∈ names.*1 ∧ attr_of sm child m n = None.
Proof.
  induction names as [|[n' a] rest IH]; simpl; [discriminate|].
  destruct (attr_of sm child m n') eqn:E.
  - intros H. destruct (IH H) as [Hin Hn]. split; [by right | exact Hn].
  - intros [= <-]. split; [by left | exact E].
Qed.

Lemma first_missing_Exists sm names n :
  n ∈ names.*1 → attr_of sm child m n = None →
  is_Some (first_missing sm child m names).
Proof.
  induction names as [|[n' a] rest IH]; simpl.
  - intros H. by apply elem_of_nil in H.
  - intros [->|Hin]%elem_of_cons Hn.
    + rewrite Hn. eauto.
    + destruct (attr_of sm child m n'); eauto.
Qed.

Lemma defines_first_missing sm names :
  defines m names.*1 → first_missing sm child m names = None.
Proof.
  unfold defines. rewrite Forall_fmap. intros H.
  apply first_missing_None. eapply Forall_impl; [exact H|].
  intros [n a] [v Hv]. simpl in *. rewrite (attr_of_defined _ _ _ Hv). eauto.
Qed.

Lemma first_missing_app sm pre post :
  first_missing sm child m pre = None →
  first_missing sm child m (pre ++ post) = first_missing sm child m post.
Proof.
  induction pre as [|[n a] pre IH]; simpl; [done|].
  destruct (attr_of sm child m n); [exact IH|discriminate].
Qed.

Lemma bound_app sm pre post g :
  first_missing sm child m pre = None →
  bound sm child m (pre ++ post) g
  = bound sm child m post (bound sm child m pre g).
Proof.
  revert g. induction pre as [|[n a] pre IH]; intros g; simpl; [done|].
  destruct (attr_of sm child m n); [apply IH|discriminate].
Qed.

(** A name outside the alias list keeps its binding. *)
Lemma bound_lookup_other sm names g k :
  k ∉ names.*2 → bound sm child m names g !! k = g !! k.
Proof.
  revert g. induction names as [|[n a] rest IH]; intros g Hk; simpl; [done|].
  simpl in Hk. apply not_elem_of_cons in Hk as [Hne Hk].
  destruct (attr_of sm child m n); [|done].
  rewrite IH by done. by rewrite lookup_insert_ne.
Qed.

(** Whatever the outcome, a binding is the old one or what the import
    yields for one of the listed names. *)
Lemma bound_lookup_cases sm names g k :
  bound sm child m names g !! k = g !! k ∨
  ∃ n v, (n, k) ∈ names ∧ attr_of sm child m n = Some v ∧
         bound sm child m names g !! k = Some v.
Proof.
  revert g. induction names as [|[n a] rest IH]; intros g; simpl; [by left|].
  destruct (attr_of sm child m n) as [v|] eqn:E; [|by left].
  destruct (IH (<[a:=v]> g)) as [H|(n' & v' & Hin & Hv & H)].
  - rewrite H. destruct (decide (a = k)) as [->|Hne].
    + right. exists n, v. rewrite lookup_insert_eq.
      split; [by left | done].
    + left. by rewrite lookup_insert_ne.
  - right. exists n', v'. split; [by right | done].
Qed.

(** When every name can be imported, each alias is bound to what the
    import yields for its name. *)
Lemma bound_lookup_in sm names g n a :
  NoDup names.*2 → first_missing sm child m names = None → (n, a) ∈ names →
  bound sm child m names g !! a = attr_of sm child m n ∧
  is_Some (attr_of sm child m n).
Proof.
  revert g. induction names as [|[n' a'] rest IH]; intros g Hnd Hfm Hin;
    simpl in *.
  - by apply elem_of_nil in Hin.
  - apply NoDup_cons in Hnd as [Hnotin Hnd].
    destruct (attr_of sm child m n') as [v|] eqn:E; [|discriminate].
    apply elem_of_cons in Hin as [[= -> ->]|Hin].
    + rewrite bound_lookup_other by done.
      rewrite lookup_insert_eq, E. eauto.
    + by apply IH.
Qed.

(** Binding again what is already bound changes nothing. *)
Lemma bound_id sm names g :
  first_missing sm child m names = None →
  (∀ n a, (n, a) ∈ names → g !! a = attr_of sm child m n) →
  bound sm child m names g = g.
Proof.
  induction names as [|[n a] names IH]; simpl; [done|].
  destruct (attr_of sm child m n) as [v|] eqn:E; [|discriminate].
  intros Fm Hg. rewrite insert_id.
  - apply IH; [exact Fm|]. intros n' a' Hin. apply Hg. by right.
  - rewrite <- E. apply Hg. by left.
Qed.

Lemma names_bound_modules names st :
  sys_modules (names_bound child m names st) = sys_modules st.
Proof. reflexivity. Qed.

Lemma names_bound_other names st k :
  k ∉ names.*2 →
  globals (names_bound child m names st) !! k = globals st !! k.
Proof. apply bound_lookup_other. Qed.

Lemma names_bound_in names st n a :
  NoDup names.*2 → first_missing (sys_modules st) child m names = None →
  (n, a) ∈ names →
  globals (names_bound child m names st) !! a
  = attr_of (sys_modules st) child m n ∧
  is_Some (attr_of (sys_modules st) child m n).
Proof. apply bound_lookup_in. Qed.

Lemma names_bound_agree names st :
  "builders" ∉ names.*2 → "response" ∉ names.*2 →
  agree st → agree (names_bound child m names st).
Proof.
  intros Hb Hr Hag c m' Hc Hm. rewrite names_bound_other.
  - by apply Hag.
  - by destruct Hc as [-> | ->].
Qed.

(** The list runs up to its first missing name: the names before it are
    bound, that name and the ones after it are not touched. *)
Lemma names_bound_split pre n a post st :
  NoDup (pre ++ (n, a) :: post).*2 →
  first_missing (sys_modules st) child m pre = None →
  attr_of (sys_modules st) child m n = None →
  first_missing (sys_modules st) child m (pre ++ (n, a) :: post) = Some n ∧
  (∀ n' a', (n', a') ∈ pre →
     globals (names_bound child m (pre ++ (n, a) :: post) st) !! a'
     = attr_of (sys_modules st) child m n') ∧
  (∀ k, k ∈ a :: post.*2 →
     globals (names_bound child m (pre ++ (n, a) :: post) st) !! k
     = globals st !! k).
Proof.
  rewrite fmap_app. intros (Hpre & Hdisj & _)%NoDup_app Fm Hn.
  assert (∀ g, bound (sys_modules st) child m ((n, a) :: post) g = g)
    as Hhead.
  { intros g. simpl. by rewrite Hn. }
  split; [|split].
  - rewrite first_missing_app by done. simpl. by rewrite Hn.
  - intros n' a' Hin. unfold names_bound. cbn [globals].
    rewrite bound_app, Hhead by done.
    by apply bound_lookup_in.
  - intros k Hk. unfold names_bound. cbn [globals].
    rewrite bound_app, Hhead by done.
    apply bound_lookup_other. intros Hin. by apply (Hdisj k).
Qed.

End ImportNames.

(** ** Obtaining a submodule *)

Section ImportModule.
Context (L : loader).
Implicit Types (st : state) (names : list (string * string)).

Lemma import_module_run child st :
  import_module L child st =
    match sys_modules st !! resolve_name child with
    | Some (Some m) => (st, inr m)
    | Some None => (st, inl (ModuleNotFoundError (resolve_name child)))
    | None =>
        match L (resolve_name child) st with
        | (st', inl e) => (uncache (resolve_name child) st', inl e)
        | (st', inr m) =>
            (State (<[child := mod_id m]> (globals st'))
                   (<[resolve_name child := Some m]> (sys_modules st')),
             inr m)
        end
    end.
Proof.
  unfold import_module, mbind, M_bind, get.
  destruct (sys_modules st !! resolve_name child) as [[m|]|]; [done..|].
  unfold load. destruct (L (resolve_name child) st) as [st' [e|m]]; done.
Qed.

Lemma import_module_cached child st m :
  sys_modules st !! resolve_name child = Some (Some m) →
  import_module L child st = (st, inr m).
Proof. intros E. by rewrite import_module_run, E. Qed.

(** A submodule that was obtained is in the cache. *)
Lemma obtained_cached child st st1 m :
  import_module L child st = (st1, inr m) →
  sys_modules st1 !! resolve_name child = Some (Some m).
Proof.
  rewrite import_module_run.
  destruct (sys_modules st !! resolve_name child) as [[m'|]|] eqn:E.
  - by intros [= <- <-].
  - discriminate.
  - destruct (L (resolve_name child) st) as [st' [e|m']]; [discriminate|].
    intros [= <- <-]. apply lookup_insert_eq.
Qed.

(** A submodule that was not obtained is not in the cache as a module. *)
Lemma failed_not_cached child st st1 e :
  import_module L child st = (st1, inl e) →
  sys_modules st1 !! resolve_name child = None ∨
  sys_modules st1 !! resolve_name child = Some None.
Proof.
  rewrite import_module_run.
  destruct (sys_modules st !! resolve_name child) as [[m'|]|] eqn:E.
  - discriminate.
  - intros [= <- _]. by right.
  - destruct (L (resolve_name child) st) as [st' [e'|m']]; [|discriminate].
    intros [= <- _]. left. apply lookup_delete_eq.
Qed.

Lemma import_module_globals child st k :
  keeps L k → k ≠ child →
  globals (import_module L child st).1 !! k = globals st !! k.
Proof.
  intros Hk Hne. rewrite import_module_run.
  destruct (sys_modules st !! resolve_name child) as [[m'|]|]; [done..|].
  specialize (Hk (resolve_name child) st).
  destruct (L (resolve_name child) st) as [st' [e|m']]; simpl in *; [done|].
  by rewrite lookup_insert_ne.
Qed.

Lemma import_module_entry child st f :
  keeps_entry L f → f ≠ resolve_name child →
  sys_modules (import_module L child st).1 !! f = sys_modules st !! f.
Proof.
  intros Hk Hne. rewrite import_module_run.
  destruct (sys_modules st !! resolve_name child) as [[m'|]|]; [done..|].
  specialize (Hk (resolve_name child) st).
  destruct (L (resolve_name child) st) as [st' [e|m']]; simpl in *.
  - by rewrite lookup_delete_ne.
  - by rewrite lookup_insert_ne.
Qed.

Lemma import_module_mono child st :
  cache_grows L → sys_modules st ⊆ sys_modules (import_module L child st).1.
Proof.
  intros Hg. rewrite import_module_run.
  destruct (sys_modules st !! resolve_name child) as [[m'|]|] eqn:E; [done..|].
  specialize (Hg (resolve_name child) st).
  destruct (L (resolve_name child) st) as [st' [e|m']]; simpl in *.
  - apply map_subseteq_spec. intros f x Hf.
    assert (f ≠ resolve_name child) by congruence.
    rewrite lookup_delete_ne by done. by eapply lookup_weaken.
  - by apply insert_subseteq_r.
Qed.

Lemma import_module_agree child st :
  keeps_agreement L → agree st → agree (import_module L child st).1.
Proof.
  intros Hk Hag. rewrite import_module_run.
  destruct (sys_modules st !! resolve_name child) as [[m'|]|] eqn:E; [done..|].
  specialize (Hk (resolve_name child) st Hag).
  destruct (L (resolve_name child) st) as [st' [e|m']]; simpl in *.
  - intros c m Hc. cbn [uncache sys_modules globals].
    destruct (decide (resolve_name c = resolve_name child)) as [->|Hne].
    + by rewrite lookup_delete_eq.
    + rewrite lookup_delete_ne by done. by apply Hk.
  - intros c m Hc. cbn [sys_modules globals].
    destruct (decide (c = child)) as [->|Hne].
    + rewrite !lookup_insert_eq. by intros [= ->].
    + assert (resolve_name child ≠ resolve_name c).
      { unfold resolve_name. intros Heq.
        apply (inj (String.append _)) in Heq.
        apply (inj (String.append _)) in Heq. congruence. }
      rewrite !lookup_insert_ne by done. by apply Hk.
Qed.

Lemma from_import_run child names st :
  from_import L child names st =
    match import_module L child st with
    | (st1, inl e) => (st1, inl e)
    | (st1, inr m) =>
        (names_bound child m names st1,
         match first_missing (sys_modules st1) child m names with
         | None => inr tt
         | Some n => inl (ImportError n (resolve_name child))
         end)
    end.
Proof.
  unfold from_import, mbind, M_bind.
  destruct (import_module L child st) as [st1 [e|m]]; [reflexivity|].
  apply import_names_run.
Qed.

End ImportModule.

(** ** The names of the source file *)

(** Splits membership in a literal list into its cases. *)
Ltac list_cases H :=
  repeat (apply elem_of_cons in H as [H|H]; [try subst|]);
  try (by apply elem_of_nil in H).

Lemma submodules_distinct : resolve_name "response" ≠ resolve_name "builders".
Proof. compute_done. Qed.

Lemma builders_aliases_NoDup : NoDup builders_imports.*2.
Proof. compute_done. Qed.

Lemma response_aliases_NoDup : NoDup response_imports.*2.
Proof. compute_done. Qed.

(** The targets of the two statements are the listed names, in order. *)
Lemma aliases_listed :
  builders_imports.*2 ++ response_imports.*2 = listed_names.
Proof. reflexivity. Qed.

Lemma names_of_builders : names_of "builders" = builders_imports.*1.
Proof. reflexivity. Qed.

Lemma names_of_response : names_of "response" = response_imports.*1.
Proof. reflexivity. Qed.

Lemma origin_builders n :
  origin n = Some "builders" ↔ (n, n) ∈ builders_imports.
Proof.
  split.
  - unfold origin. intros H. case_decide as Hin; [|case_decide; discriminate].
    clear H. list_cases Hin; compute_done.
  - intros H. list_cases H; injection H as -> ; reflexivity.
Qed.

Lemma origin_response n :
  origin n = Some "response" ↔ (n, n) ∈ response_imports.
Proof.
  split.
  - unfold origin. intros H. case_decide as Hin; [discriminate|].
    case_decide as Hin'; [|discriminate].
    clear H Hin. list_cases Hin'; compute_done.
  - intros H. list_cases H; injection H as -> ; reflexivity.
Qed.

Lemma origin_cases n c :
  origin n = Some c →
  (c = "builders" ∧ (n, n) ∈ builders_imports) ∨
  (c = "response" ∧ (n, n) ∈ response_imports).
Proof.
  intros H. assert (c = "builders" ∨ c = "response") as [-> | ->].
  { unfold origin in H. repeat case_decide; simplify_eq; auto. }
  - left. split; [done|]. by apply origin_builders.
  - right. split; [done|]. by apply origin_response.
Qed.

Lemma listed_origin n :
  n ∈ listed_names ↔ origin n = Some "builders" ∨ origin n = Some "response".
Proof.
  split.
  - intros H. list_cases H; compute_done.
  - intros [H|H].
    + apply origin_builders in H. list_cases H; injection H as ->; compute_done.
    + apply origin_response in H. list_cases H; injection H as ->; compute_done.
Qed.

(** A name imported by one statement is a listed name, is neither a target
    of the other statement nor the name of a submodule. *)
Lemma builders_name_apart n a :
  (n, a) ∈ builders_imports →
  n = a ∧ a ∈ listed_names ∧ (a ∉ response_imports.*2) ∧
  a ≠ "builders" ∧ a ≠ "response".
Proof. intros H. list_cases H; injection H as -> ->; compute_done. Qed.

Lemma response_name_apart n a :
  (n, a) ∈ response_imports →
  n = a ∧ a ∈ listed_names ∧ (a ∉ builders_imports.*2) ∧
  a ≠ "builders" ∧ a ≠ "response".
Proof. intros H. list_cases H; injection H as -> ->; compute_done. Qed.

Lemma listed_not_alias k :
  k ∉ listed_names →
  (k ∉ builders_imports.*2) ∧ (k ∉ response_imports.*2).
Proof. rewrite <- aliases_listed. rewrite elem_of_app. tauto. Qed.

Lemma public_names k :
  k ∈ listed_names ∨ k = "builders" ∨ k = "response" → is_public k = true.
Proof. intros [H|[->| ->]]; [list_cases H|..]; reflexivity. Qed.

(** ** Running the module body *)

Section Init.
Context (L : loader).
Implicit Types (st : state) (mb mr : py_module).

(** The body is the first statement and, when that does not raise, the
    second. *)
Lemma init_seq st :
  __init__ L st =
    match from_import L "builders" builders_imports st with
    | (st1, inr _) => from_import L "response" response_imports st1
    | (st1, inl e) => (st1, inl e)
    end.
Proof. reflexivity. Qed.

(** Every way the body can run. *)
Lemma init_cases st :
  __init__ L st =
    match import_module L "builders" st with
    | (st1, inl e) => (st1, inl e)
    | (st1, inr mb) =>
        match first_missing (sys_modules st1) "builders" mb builders_imports
        with
        | Some n =>
            (names_bound "builders" mb builders_imports st1,
             inl (ImportError n (resolve_name "builders")))
        | None =>
            match import_module L "response"
                    (names_bound "builders" mb builders_imports st1) with
            | (st2, inl e) => (st2, inl e)
            | (st2, inr mr) =>
                (names_bound "response" mr response_imports st2,
                 match first_missing (sys_modules st2) "response" mr
                         response_imports with
                 | Some n => inl (ImportError n (resolve_name "response"))
                 | None => inr tt
                 end)
            end
        end
    end.
Proof.
  rewrite init_seq, from_import_run.
  destruct (import_module L "builders" st) as [st1 [e|mb]]; [reflexivity|].
  destruct (first_missing (sys_modules st1) "builders" mb builders_imports);
    [reflexivity|].
  rewrite from_import_run.
  destruct (import_module L "response" _) as [st2 [e|mr]]; reflexivity.
Qed.

(** The state the first statement leaves when it succeeds. *)
Lemma first_statement_run st st1 mb :
  import_module L "builders" st = (st1, inr mb) →
  first_missing (sys_modules st1) "builders" mb builders_imports = None →
  from_import L "builders" builders_imports st
  = (names_bound "builders" mb builders_imports st1, inr tt).
Proof. intros Hb Fb. by rewrite from_import_run, Hb, Fb. Qed.

(** A run that does not raise obtained both submodules and could import
    every name. *)
Lemma init_success st :
  (__init__ L st).2 = inr tt →
  ∃ st1 mb st2 mr,
    import_module L "builders" st = (st1, inr mb) ∧
    first_missing (sys_modules st1) "builders" mb builders_imports = None ∧
    import_module L "response"
      (names_bound "builders" mb builders_imports st1) = (st2, inr mr) ∧
    first_missing (sys_modules st2) "response" mr response_imports = None ∧
    __init__ L st = (names_bound "response" mr response_imports st2, inr tt).
Proof.
  rewrite init_cases.
  destruct (import_module L "builders" st) as [st1 [e|mb]]; [discriminate|].
  destruct (first_missing (sys_modules st1) "builders" mb builders_imports)
    eqn:Fb; [discriminate|].
  destruct (import_module L "response" _) as [st2 [e|mr]] eqn:Hr;
    [discriminate|].
  destruct (first_missing (sys_modules st2) "response" mr response_imports)
    eqn:Fr; [discriminate|].
  intros _. by exists st1, mb, st2, mr.
Qed.

(** The run when both submodules are obtained and every name can be
    imported. *)
Lemma init_ok st st1 mb st2 mr :
  import_module L "builders" st = (st1, inr mb) →
  first_missing (sys_modules st1) "builders" mb builders_imports = None →
  import_module L "response"
    (names_bound "builders" mb builders_imports st1) = (st2, inr mr) →
  first_missing (sys_modules st2) "response" mr response_imports = None →
  __init__ L st = (names_bound "response" mr response_imports st2, inr tt).
Proof. intros Hb Fb Hr Fr. by rewrite init_cases, Hb, Fb, Hr, Fr. Qed.

(** *** The state after a successful run *)

Section Final.
Context (st st1 st2 : state) (mb mr : py_module).
Context (Hb : import_module L "builders" st = (st1, inr mb)).
Context (Fb : first_missing (sys_modules st1) "builders" mb builders_imports
              = None).
Context (Hr : import_module L "response"
                (names_bound "builders" mb builders_imports st1)
              = (st2, inr mr)).
Context (Fr : first_missing (sys_modules st2) "response" mr response_imports
              = None).

Local Abbreviation final :=
  (names_bound "response" mr response_imports st2).

Lemma final_response_name n a :
  (n, a) ∈ response_imports →
  globals final !! a = attr_of (sys_modules final) "response" mr n ∧
  is_Some (attr_of (sys_modules final) "response" mr n).
Proof using Fr.
  intros Hin. rewrite names_bound_modules.
  apply names_bound_in; [apply response_aliases_NoDup|done..].
Qed.

Lemma final_cached_response :
  sys_modules final !! resolve_name "response" = Some (Some mr).
Proof using Hr.
  rewrite names_bound_modules. by apply (obtained_cached L _ _ _ _ Hr).
Qed.

Lemma final_cache_mono :
  cache_grows L → sys_modules st1 ⊆ sys_modules final.
Proof using Hr.
  intros Hg. pose proof (import_module_mono L "response"
    (names_bound "builders" mb builders_imports st1) Hg) as Hm.
  rewrite Hr in Hm. exact Hm.
Qed.

Lemma final_cached_builders :
  cache_grows L →
  sys_modules final !! resolve_name "builders" = Some (Some mb).
Proof using Hb Hr.
  intros Hg. eapply lookup_weaken; [|by apply final_cache_mono].
  by apply (obtained_cached L _ _ _ _ Hb).
Qed.

Lemma final_builders_name n a :
  keeps_listed L → (n, a) ∈ builders_imports →
  globals final !! a = attr_of (sys_modules st1) "builders" mb n ∧
  is_Some (attr_of (sys_modules st1) "builders" mb n).
Proof using Fb Hr.
  intros Hk Hin.
  destruct (builders_name_apart n a Hin) as (_ & Hl & Hnr & _ & Har).
  rewrite names_bound_other by done.
  pose proof (import_module_globals L "response"
    (names_bound "builders" mb builders_imports st1) a (Hk a Hl) Har) as Hg.
  rewrite Hr in Hg. cbn [fst] in Hg. rewrite Hg.
  apply names_bound_in; [apply builders_aliases_NoDup|done..].
Qed.

(** A listed name is bound to what the import yields for it on its origin
    submodule, which is the module now in the cache. *)
Lemma final_origin n c :
  keeps_listed L → cache_grows L → origin n = Some c →
  ∃ v, sys_modules final !! resolve_name c = Some (Some (pick mb mr c)) ∧
       attr_of (sys_modules final) c (pick mb mr c) n = Some v ∧
       globals final !! n = Some v.
Proof using Hb Fb Hr Fr.
  intros Hk Hg [[-> Hin]|[-> Hin]]%origin_cases; unfold pick;
    case_decide; try done.
  - destruct (final_builders_name n n Hk Hin) as [Hv [v Hs]].
    exists v. split; [by apply final_cached_builders|].
    split; [|congruence].
    by apply (attr_of_mono _ _ (sys_modules st1)); [apply final_cache_mono|].
  - destruct (final_response_name n n Hin) as [Hv [v Hs]].
    exists v. split; [by apply final_cached_response|].
    split; [done|congruence].
Qed.

End Final.

End Init.

(** ** The concrete interpreters are of the assumed kind *)

Module ExampleFacts.
Import Example.

Lemma sibling_globals st k :
  k ≠ "expressions" → globals (import_sibling st) !! k = globals st !! k.
Proof.
  intros Hne. unfold import_sibling.
  destruct (sys_modules st !! resolve_name "expressions"); [done|].
  simpl. by rewrite lookup_insert_ne.
Qed.

Lemma sibling_entry st f :
  f ≠ resolve_name "expressions" →
  sys_modules (import_sibling st) !! f = sys_modules st !! f.
Proof.
  intros Hne. unfold import_sibling.
  destruct (sys_modules st !! resolve_name "expressions"); [done|].
  simpl. by rewrite lookup_insert_ne.
Qed.

Lemma sibling_mono st : sys_modules st ⊆ sys_modules (import_sibling st).
Proof.
  unfold import_sibling.
  destruct (sys_modules st !! resolve_name "expressions") eqn:E; [done|].
  simpl. by apply insert_subseteq.
Qed.

Lemma sibling_agree st : agree st → agree (import_sibling st).
Proof.
  intros Hag c m Hc. rewrite sibling_entry, sibling_globals.
  - by apply Hag.
  - by destruct Hc as [-> | ->].
  - destruct Hc as [-> | ->]; compute_done.
Qed.

Section Tame.
Context (builders response : state → state * (exn + py_module)).
Context (Tb : tame builders) (Tr : tame response).

Lemma tame_cases f st :
  (submodules builders response f st).1 = st ∨
  (submodules builders response f st).1 = import_sibling st.
Proof.
  unfold submodules. repeat case_decide; [apply Tb|apply Tr|by left].
Qed.

Lemma tame_keeps k : k ≠ "expressions" → keeps (submodules builders response) k.
Proof.
  intros Hne f st. destruct (tame_cases f st) as [-> | ->]; [done|].
  by apply sibling_globals.
Qed.

Lemma tame_keeps_listed : keeps_listed (submodules builders response).
Proof.
  intros k Hk. apply tame_keeps. intros ->. revert Hk. compute_done.
Qed.

Lemma tame_keeps_entry f :
  f ≠ resolve_name "expressions" →
  keeps_entry (submodules builders response) f.
Proof.
  intros Hne g st. destruct (tame_cases g st) as [-> | ->]; [done|].
  by apply sibling_entry.
Qed.

Lemma tame_cache_grows : cache_grows (submodules builders response).
Proof.
  intros f st. destruct (tame_cases f st) as [-> | ->]; [done|].
  apply sibling_mono.
Qed.

Lemma tame_keeps_agreement : keeps_agreement (submodules builders response).
Proof.
  intros f st Hag. destruct (tame_cases f st) as [-> | ->]; [done|].
  by apply sibling_agree.
Qed.

End Tame.

Lemma tame_builders_body : tame builders_body.
Proof. intros st. by right. Qed.

Lemma tame_builders_partial_body : tame builders_partial_body.
Proof. intros st. by right. Qed.

Lemma tame_builders_raises : tame builders_raises.
Proof. intros st. by right. Qed.

Lemma tame_response_body : tame response_body.
Proof. intros st. by left. Qed.

Lemma tame_response_renamed_body : tame response_renamed_body.
Proof. intros st. by left. Qed.

Lemma tame_absent child : tame (absent child).
Proof. intros st. by left. Qed.

(** The fresh package namespace agrees with any cache that holds neither
    submodule. *)
Lemma agree_st0 : agree st0.
Proof. intros c m [-> | ->]; vm_compute; discriminate. Qed.

Lemma defines_builders_at a :
  defines (builders_at a) builders_imports.*1.
Proof. repeat constructor; vm_compute; eauto. Qed.

Lemma defines_response_at a :
  defines (response_at a) response_imports.*1.
Proof. repeat constructor; vm_compute; eauto. Qed.

End ExampleFacts.

(** ** What a run leaves untouched, and where its bindings come from *)

Lemma first_missing_split sm child m names n :
  first_missing sm child m names = Some n →
  ∃ pre a post, names = pre ++ (n, a) :: post ∧
                first_missing sm child m pre = None.
Proof.
  induction names as [|[n' a'] rest IH]; simpl; [discriminate|].
  destruct (attr_of sm child m n') as [v|] eqn:E.
  - intros H. destruct (IH H) as (pre & a & post & -> & Fm).
    exists ((n', a') :: pre), a, post. split; [done|]. simpl. by rewrite E.
  - intros [= <-]. by exists [], a', rest.
Qed.

Lemma first_missing_mono sm sm' child m names :
  sm ⊆ sm' → first_missing sm child m names = None →
  first_missing sm' child m names = None.
Proof.
  intros Hsub. rewrite !first_missing_None. intros H.
  eapply Forall_impl; [exact H|].
  intros [n a] [v Hv]. exists v. by eapply attr_of_mono.
Qed.

(** The first name that cannot be imported is not bound by the list. *)
Lemma names_bound_missing child m names st n :
  NoDup names.*2 → (∀ n' a', (n', a') ∈ names → n' = a') →
  first_missing (sys_modules st) child m names = Some n →
  globals (names_bound child m names st) !! n = globals st !! n.
Proof.
  intros Hnd Hsame Fm.
  destruct (first_missing_split _ _ _ _ _ Fm) as (pre & a & post & -> & Fpre).
  assert (n = a) as <-.
  { apply Hsame. apply elem_of_app. right. by left. }
  apply first_missing_Some in Fm as [_ Hn].
  destruct (names_bound_split child m pre n n post st Hnd Fpre Hn)
    as (_ & _ & Hrest).
  apply Hrest. by left.
Qed.

Section Frame.
Context (L : loader).
Implicit Types (st : state).

(** Names other than the nine and the two submodule names change only as
    executing the submodules changes them. *)
Lemma init_globals_other st k :
  k ∉ listed_names → k ≠ "builders" → k ≠ "response" → keeps L k →
  globals (__init__ L st).1 !! k = globals st !! k.
Proof.
  intros [Hb Hr]%listed_not_alias Hkb Hkr Hk. rewrite init_cases.
  pose proof (import_module_globals L "builders" st k Hk Hkb) as H1.
  destruct (import_module L "builders" st) as [st1 [e|mb]]; [done|].
  cbn [fst] in H1.
  assert (globals (names_bound "builders" mb builders_imports st1) !! k
          = globals st !! k) as H2.
  { by rewrite names_bound_other. }
  destruct (first_missing _ _ _ builders_imports); [done|].
  pose proof (import_module_globals L "response"
    (names_bound "builders" mb builders_imports st1) k Hk Hkr) as H3.
  destruct (import_module L "response" _) as [st2 [e|mr]]; cbn [fst] in *.
  - congruence.
  - rewrite names_bound_other by done. congruence.
Qed.

(** Cache entries other than the two submodules change only as executing
    the submodules changes them. *)
Lemma init_entry_other st f :
  f ≠ resolve_name "builders" → f ≠ resolve_name "response" →
  keeps_entry L f →
  sys_modules (__init__ L st).1 !! f = sys_modules st !! f.
Proof.
  intros Hfb Hfr Hk. rewrite init_cases.
  pose proof (import_module_entry L "builders" st f Hk Hfb) as H1.
  destruct (import_module L "builders" st) as [st1 [e|mb]]; [done|].
  cbn [fst] in H1.
  destruct (first_missing _ _ _ builders_imports); [done|].
  pose proof (import_module_entry L "response"
    (names_bound "builders" mb builders_imports st1) f Hk Hfr) as H3.
  destruct (import_module L "response" _) as [st2 [e|mr]]; cbn [fst] in *;
    rewrite ?names_bound_modules in *; congruence.
Qed.

(** No cached module is replaced or removed, when executing the submodules
    does not do so. *)
Lemma init_modules_mono st :
  cache_grows L → sys_modules st ⊆ sys_modules (__init__ L st).1.
Proof.
  intros Hg. rewrite init_cases.
  pose proof (import_module_mono L "builders" st Hg) as H1.
  destruct (import_module L "builders" st) as [st1 [e|mb]]; [done|].
  cbn [fst] in H1.
  destruct (first_missing _ _ _ builders_imports); [done|].
  pose proof (import_module_mono L "response"
    (names_bound "builders" mb builders_imports st1) Hg) as H3.
  destruct (import_module L "response" _) as [st2 [e|mr]]; cbn [fst] in *;
    rewrite ?names_bound_modules in *; by etrans.
Qed.

(** Namespace and cache stay in agreement on the two submodules. *)
Lemma init_agree st :
  keeps_agreement L → agree st → agree (__init__ L st).1.
Proof.
  intros Hk Hag. rewrite init_cases.
  pose proof (import_module_agree L "builders" st Hk Hag) as H1.
  destruct (import_module L "builders" st) as [st1 [e|mb]]; [done|].
  cbn [fst] in H1.
  assert (agree (names_bound "builders" mb builders_imports st1)) as H2.
  { apply names_bound_agree; [compute_done..|done]. }
  destruct (first_missing _ _ _ builders_imports); [done|].
  pose proof (import_module_agree L "response" _ Hk H2) as H3.
  destruct (import_module L "response" _) as [st2 [e|mr]]; cbn [fst] in *;
    [done|].
  apply names_bound_agree; [compute_done..|done].
Qed.

(** Whatever the outcome, a listed name is either bound as before or bound
    to what the import yields for it on its origin submodule, the module
    now in the cache. *)
Lemma init_bindings_genuine st k c :
  keeps_listed L → cache_grows L → origin k = Some c →
  globals (__init__ L st).1 !! k = globals st !! k ∨
  ∃ m v, sys_modules (__init__ L st).1 !! resolve_name c = Some (Some m) ∧
         attr_of (sys_modules (__init__ L st).1) c m k = Some v ∧
         globals (__init__ L st).1 !! k = Some v.
Proof.
  intros Hk Hg Ho.
  assert (k ∈ listed_names) as Hl.
  { apply listed_origin. destruct (origin_cases k c Ho) as [[-> _]|[-> _]];
      rewrite Ho; auto. }
  assert (k ≠ "builders" ∧ k ≠ "response") as [Hkb Hkr].
  { split; intros ->; revert Hl; compute_done. }
  rewrite init_cases.
  pose proof (import_module_globals L "builders" st k (Hk k Hl) Hkb) as H1.
  destruct (import_module L "builders" st) as [st1 [e|mb]] eqn:Hb;
    cbn [fst] in *; [by left|].
  pose proof (obtained_cached L _ _ _ _ Hb) as Cb.
  set (s1 := names_bound "builders" mb builders_imports st1).
  (* what the first statement did to [k] *)
  assert (globals s1 !! k = globals st !! k ∨
          ∃ v, c = "builders" ∧
               attr_of (sys_modules st1) "builders" mb k = Some v ∧
               globals s1 !! k = Some v) as Hs1.
  { destruct (bound_lookup_cases "builders" mb (sys_modules st1)
                builders_imports (globals st1) k)
      as [H|(n & v & Hin & Hv & H)].
    - left. unfold s1, names_bound. cbn [globals]. congruence.
    - right. destruct (builders_name_apart n k Hin) as (-> & _).
      exists v. split; [|done].
      apply origin_builders in Hin. congruence. }
  destruct (first_missing _ _ _ builders_imports).
  { cbn [fst]. destruct Hs1 as [H|(v & -> & Hv & H)]; [by left|right].
    exists mb, v. unfold s1 in *. by rewrite names_bound_modules. }
  pose proof (import_module_globals L "response" s1 k (Hk k Hl) Hkr) as H3.
  pose proof (import_module_mono L "response" s1 Hg) as M3.
  destruct (import_module L "response" s1) as [st2 [e|mr]] eqn:Hr;
    cbn [fst] in *.
  - (* the second statement did not obtain its module *)
    destruct Hs1 as [H|(v & -> & Hv & H)]; [left; congruence|right].
    exists mb, v. split; [by eapply lookup_weaken|].
    split; [by eapply attr_of_mono|congruence].
  - pose proof (obtained_cached L _ _ _ _ Hr) as Cr.
    rewrite names_bound_modules. unfold names_bound. cbn [globals].
    destruct (bound_lookup_cases "response" mr (sys_modules st2)
                response_imports (globals st2) k)
      as [H|(n & v & Hin & Hv & H)].
    + rewrite H.
      destruct Hs1 as [H'|(v & -> & Hv & H')]; [left; congruence|right].
      exists mb, v. split; [by eapply lookup_weaken|].
      split; [by eapply attr_of_mono|congruence].
    + right. destruct (response_name_apart n k Hin) as (-> & _).
      apply origin_response in Hin as Ho'.
      assert (c = "response") as -> by congruence.
      exists mr, v. done.
Qed.

End Frame.

Lemma provides_defines m names : provides m names → defines m names.
Proof.
  unfold provides, defines. intros H. eapply Forall_impl; [exact H|].
  intros n (v & Hv & _). eauto.
Qed.

Lemma provides_lookup m names n :
  provides m names → n ∈ names →
  ∃ v, mod_dict m !! n = Some v ∧ v ≠ Py_None.
Proof. unfold provides. rewrite Forall_forall. auto. Qed.

Lemma provides_builders_at a :
  provides (Example.builders_at a) (names_of "builders").
Proof.
  unfold provides.
  let l := eval vm_compute in (names_of "builders") in
  change (names_of "builders") with l.
  repeat (apply Forall_cons_2;
          [eexists; split;
             [reflexivity|cbn [snd]; unfold Py_None, loc in *; lia]|]).
  apply Forall_nil_2.
Qed.

Lemma provides_response_at a :
  provides (Example.response_at a) (names_of "response").
Proof.
  unfold provides.
  let l := eval vm_compute in (names_of "response") in
  change (names_of "response") with l.
  repeat (apply Forall_cons_2;
          [eexists; split;
             [reflexivity|cbn [snd]; unfold Py_None, loc in *; lia]|]).
  apply Forall_nil_2.
Qed.

(** * The claims *)

(** C1.  When obtaining each submodule succeeds with a module that defines
    the names the table attributes to it as objects other than [None], and
    executing the submodules leaves the re-exported names alone, importing
    the package root succeeds and each of the nine listed names is bound
    to the object its origin submodule defines under that name, which is
    not [None]. *)
Theorem import_resolves_listed_names (L : loader) (st st1 st2 : state)
    (mb mr : py_module) :
  keeps_listed L →
  import_module L "builders" st = (st1, inr mb) →
  provides mb (names_of "builders") →
  import_module L "response" (from_import L "builders" builders_imports st).1
  = (st2, inr mr) →
  provides mr (names_of "response") →
  (__init__ L st).2 = inr tt ∧
  ∀ n c, origin n = Some c →
    ∃ v, globals (__init__ L st).1 !! n = Some v ∧ v ≠ Py_None ∧
         mod_dict (pick mb mr c) !! n = Some v.
Proof.
  intros Hk Hb Pb Hr Pr.
  pose proof (defines_first_missing "builders" mb (sys_modules st1)
                builders_imports (provides_defines _ _ Pb)) as Fb.
  pose proof (defines_first_missing "response" mr (sys_modules st2)
                response_imports (provides_defines _ _ Pr)) as Fr.
  rewrite (first_statement_run L st st1 mb Hb Fb) in Hr. cbn [fst] in Hr.
  rewrite (init_ok L st st1 mb st2 mr Hb Fb Hr Fr). split; [reflexivity|].
  cbn [fst]. intros n c [[-> Hin]|[-> Hin]]%origin_cases; unfold pick;
    case_decide; try done.
  - destruct (provides_lookup mb _ n Pb) as (v & Hv & Hnone).
    { rewrite names_of_builders. by apply (list_elem_of_fmap_2 fst _ (n, n)). }
    exists v. split; [|done].
    destruct (final_builders_name L st1 st2 mb mr Fb Hr n n Hk Hin) as [-> _].
    by apply attr_of_defined.
  - destruct (provides_lookup mr _ n Pr) as (v & Hv & Hnone).
    { rewrite names_of_response. by apply (list_elem_of_fmap_2 fst _ (n, n)). }
    exists v. split; [|done].
    destruct (final_response_name st2 mr Fr n n Hin) as [-> _].
    by apply attr_of_defined.
Qed.

Lemma import_resolves_listed_names_witness :
  (__init__ Example.L Example.st0).2 = inr tt ∧
  ∀ n c, origin n = Some c →
    ∃ v, globals (__init__ Example.L Example.st0).1 !! n = Some v ∧
         v ≠ Py_None ∧
         mod_dict (pick (Example.builders_at 1100) (Example.response_at 1700) c)
           !! n = Some v.
Proof.
  apply (import_resolves_listed_names Example.L Example.st0
           (import_module Example.L "builders" Example.st0).1
           (import_module Example.L "response"
              (from_import Example.L "builders" builders_imports
                 Example.st0).1).1).
  - apply ExampleFacts.tame_keeps_listed;
      [apply ExampleFacts.tame_builders_body
      |apply ExampleFacts.tame_response_body].
  - vm_compute. reflexivity.
  - apply provides_builders_at.
  - vm_compute. reflexivity.
  - apply provides_response_at.
Defined.

(** C3.  After a successful import, with submodules whose execution leaves
    the re-exported names alone and only adds to the module cache, each of
    the nine names is bound at the package root to the very object that
    importing the name directly from its origin submodule then yields; the
    direct import finds the submodule in the cache and changes nothing. *)
Theorem reexport_identical_to_direct_import (L : loader) (st : state)
    (n child : string) :
  keeps_listed L → cache_grows L →
  (__init__ L st).2 = inr tt →
  origin n = Some child →
  ∃ v, globals (__init__ L st).1 !! n = Some v ∧
       import_direct L child n (__init__ L st).1
       = ((__init__ L st).1, inr v).
Proof.
  intros Hk Hg Hok Ho.
  destruct (init_success L st Hok)
    as (st1 & mb & st2 & mr & Hb & Fb & Hr & Fr & ->).
  cbn [fst].
  destruct (final_origin L st st1 st2 mb mr Hb Fb Hr Fr n child Hk Hg Ho)
    as (v & Hc & Hv & Hgl).
  exists v. split; [exact Hgl|].
  unfold import_direct, mbind, M_bind.
  rewrite (import_module_cached L _ _ _ Hc), import_attr_run, Hv.
  reflexivity.
Qed.

Lemma reexport_identical_to_direct_import_witness :
  ∃ v, globals (__init__ Example.L Example.st0).1 !! "TimestampRange" = Some v ∧
       import_direct Example.L "response" "TimestampRange"
         (__init__ Example.L Example.st0).1
       = ((__init__ Example.L Example.st0).1, inr v).
Proof.
  apply (reexport_identical_to_direct_import Example.L Example.st0
           "TimestampRange" "response").
  - apply ExampleFacts.tame_keeps_listed;
      [apply ExampleFacts.tame_builders_body
      |apply ExampleFacts.tame_response_body].
  - apply ExampleFacts.tame_cache_grows;
      [apply ExampleFacts.tame_builders_body
      |apply ExampleFacts.tame_response_body].
  - vm_compute. reflexivity.
  - vm_compute. reflexivity.
Defined.

(** C4.  Each statement of the source imports exactly the names the table
    attributes to its submodule, each under its own name.  After a
    successful import, with submodules whose execution leaves the
    re-exported names alone and only adds to the module cache, a listed
    name is bound to what the import yields for that same name on the
    submodule the table gives as its origin: the submodule's attribute of
    that name whenever the submodule defines it. *)
Theorem names_owned_by_origin (L : loader) (st : state) (n child : string) :
  keeps_listed L → cache_grows L →
  (__init__ L st).2 = inr tt →
  origin n = Some child →
  builders_imports = (λ k, (k, k)) <$> names_of "builders" ∧
  response_imports = (λ k, (k, k)) <$> names_of "response" ∧
  (child = "builders" ∨ child = "response") ∧
  ∃ m, sys_modules (__init__ L st).1 !! resolve_name child = Some (Some m) ∧
       globals (__init__ L st).1 !! n
       = attr_of (sys_modules (__init__ L st).1) child m n ∧
       is_Some (globals (__init__ L st).1 !! n) ∧
       ∀ v, mod_dict m !! n = Some v →
            globals (__init__ L st).1 !! n = Some v.
Proof.
  intros Hk Hg Hok Ho. split; [reflexivity|]. split; [reflexivity|]. split.
  { destruct (origin_cases n child Ho) as [[-> _]|[-> _]]; auto. }
  destruct (init_success L st Hok)
    as (st1 & mb & st2 & mr & Hb & Fb & Hr & Fr & ->).
  cbn [fst].
  destruct (final_origin L st st1 st2 mb mr Hb Fb Hr Fr n child Hk Hg Ho)
    as (v & Hc & Hv & Hgl).
  exists (pick mb mr child). split; [exact Hc|].
  split; [by rewrite Hv|]. split; [eauto|]. intros v' Hv'.
  rewrite (attr_of_defined _ _ _ _ _ Hv') in Hv. by rewrite Hgl, Hv.
Qed.

Lemma names_owned_by_origin_witness :
  builders_imports = (λ k, (k, k)) <$> names_of "builders" ∧
  response_imports = (λ k, (k, k)) <$> names_of "response" ∧
  ("builders" = "builders" ∨ "builders" = "response") ∧
  ∃ m, sys_modules (__init__ Example.L Example.st0).1
         !! resolve_name "builders" = Some (Some m) ∧
       globals (__init__ Example.L Example.st0).1 !! "Query"
       = attr_of (sys_modules (__init__ Example.L Example.st0).1)
           "builders" m "Query" ∧
       is_Some (globals (__init__ Example.L Example.st0).1 !! "Query") ∧
       ∀ v, mod_dict m !! "Query" = Some v →
            globals (__init__ Example.L Example.st0).1 !! "Query" = Some v.
Proof.
  apply (names_owned_by_origin Example.L Example.st0 "Query" "builders").
  - apply ExampleFacts.tame_keeps_listed;
      [apply ExampleFacts.tame_builders_body
      |apply ExampleFacts.tame_response_body].
  - apply ExampleFacts.tame_cache_grows;
      [apply ExampleFacts.tame_builders_body
      |apply ExampleFacts.tame_response_body].
  - vm_compute. reflexivity.
  - vm_compute. reflexivity.
Defined.

(** C8.  The [builders] statement runs first: when obtaining [builders]
    fails, the body ends in that failure in the state the failed import
    left, and the second statement does not run; with submodules whose
    execution leaves the re-exported names alone, none of the nine names
    becomes bound. *)
Theorem builders_failure_binds_nothing (L : loader) (st : state) (e : exn) :
  keeps_listed L →
  (import_module L "builders" st).2 = inl e →
  __init__ L st = ((import_module L "builders" st).1, inl e) ∧
  ∀ n, n ∈ listed_names →
       globals (__init__ L st).1 !! n = globals st !! n.
Proof.
  intros Hk Hb.
  assert (__init__ L st = ((import_module L "builders" st).1, inl e)) as Hrun.
  { rewrite init_cases.
    destruct (import_module L "builders" st) as [st1 [e'|mb]];
      cbn [fst snd] in *; [by injection Hb as ->|discriminate]. }
  split; [exact Hrun|]. intros n Hn. rewrite Hrun. cbn [fst].
  apply import_module_globals; [by apply Hk|].
  intros ->. revert Hn. compute_done.
Qed.

Lemma builders_failure_binds_nothing_witness :
  __init__ Example.L_broken Example.st0
  = ((import_module Example.L_broken "builders" Example.st0).1,
     inl (Raised 99)) ∧
  ∀ n, n ∈ listed_names →
       globals (__init__ Example.L_broken Example.st0).1 !! n
       = globals Example.st0 !! n.
Proof.
  apply (builders_failure_binds_nothing Example.L_broken Example.st0).
  - apply ExampleFacts.tame_keeps_listed;
      [apply ExampleFacts.tame_builders_raises
      |apply ExampleFacts.tame_response_body].
  - vm_compute. reflexivity.
Defined.

(** C5, as stated, fails: with [QueryResponseItem] missing from the
    [response] module that the import obtains, the import still succeeds
    when the module cache holds an entry named
    [response.QueryResponseItem], and binds the name to that entry. *)
Lemma missing_symbol_substituted :
  origin "QueryResponseItem" = Some "response" ∧
  (__init__ Example.L_renamed Example.st_fallback).2 = inr tt ∧
  (∃ mr, sys_modules (__init__ Example.L_renamed Example.st_fallback).1
           !! resolve_name "response" = Some (Some mr) ∧
         mod_dict mr !! "QueryResponseItem" = None) ∧
  globals (__init__ Example.L_renamed Example.st_fallback).1
    !! "QueryResponseItem" = Some 77%positive.
Proof.
  split; [reflexivity|]. split; [vm_compute; reflexivity|]. split.
  - exists (Example.response_renamed_at 1800). split; vm_compute; reflexivity.
  - vm_compute. reflexivity.
Qed.

(** C5, amended.  When the submodules are obtained, executing them leaves
    the re-exported names alone, and a listed symbol can be read neither
    from its origin submodule nor, failing that, from a cache entry named
    after the submodule and the symbol, importing the package root ends
    in the import system's [ImportError] for a listed symbol that its
    origin submodule does not define, and that symbol keeps the binding it
    had. *)
Theorem missing_symbol_fails (L : loader) (st st1 st2 : state)
    (mb mr : py_module) (n : string) :
  keeps_listed L →
  import_module L "builders" st = (st1, inr mb) →
  import_module L "response" (from_import L "builders" builders_imports st).1
  = (st2, inr mr) →
  (origin n = Some "builders" ∧
   attr_of (sys_modules st1) "builders" mb n = None) ∨
  (origin n = Some "response" ∧
   attr_of (sys_modules st2) "response" mr n = None) →
  ∃ n' c,
    (__init__ L st).2 = inl (ImportError n' (resolve_name c)) ∧
    origin n' = Some c ∧
    mod_dict (pick mb mr c) !! n' = None ∧
    globals (__init__ L st).1 !! n' = globals st !! n'.
Proof.
  intros Hk Hb Hr Hmiss. rewrite init_cases, Hb.
  rewrite from_import_run, Hb in Hr.
  assert (∀ k, k ∈ listed_names → globals st1 !! k = globals st !! k) as H1.
  { intros k Hl.
    pose proof (import_module_globals L "builders" st k (Hk k Hl)) as H.
    rewrite Hb in H. apply H. intros ->. revert Hl. compute_done. }
  destruct (first_missing (sys_modules st1) "builders" mb builders_imports)
    as [n'|] eqn:Fb.
  - (* a name of the first statement cannot be imported *)
    pose proof (first_missing_Some _ _ _ _ _ Fb) as [Hin Hnone].
    apply attr_of_None in Hnone as [Hnone _].
    assert (n' ∈ listed_names ∧ origin n' = Some "builders") as [Hl Ho].
    { list_cases Hin; split; compute_done. }
    exists n', "builders". cbn [fst snd].
    split; [reflexivity|]. split; [exact Ho|]. split; [exact Hnone|].
    rewrite (names_bound_missing "builders" mb builders_imports st1 n');
      [by apply H1|apply builders_aliases_NoDup| |exact Fb].
    intros n0 a0 Hin0. by destruct (builders_name_apart n0 a0 Hin0).
  - (* the first statement ran through: the name is one of [response] *)
    cbn [fst] in Hr. rewrite Hr.
    destruct Hmiss as [[Ho Hnone]|[Ho Hnone]].
    { apply origin_builders in Ho.
      assert (n ∈ builders_imports.*1) as Hin
        by apply (list_elem_of_fmap_2 fst _ (n, n) Ho).
      destruct (first_missing_Exists "builders" mb (sys_modules st1)
                  builders_imports n Hin Hnone). congruence. }
    apply origin_response in Ho.
    assert (n ∈ response_imports.*1) as Hin
      by apply (list_elem_of_fmap_2 fst _ (n, n) Ho).
    destruct (first_missing_Exists "response" mr (sys_modules st2)
                response_imports n Hin Hnone) as [n' Fr].
    rewrite Fr.
    pose proof (first_missing_Some _ _ _ _ _ Fr) as [Hin' Hnone'].
    apply attr_of_None in Hnone' as [Hnone' _].
    assert (n' ∈ listed_names ∧ origin n' = Some "response" ∧
            (n' ∉ builders_imports.*2) ∧ n' ≠ "response") as (Hl & Ho' & Hnb & Hnr).
    { list_cases Hin'; repeat split; compute_done. }
    exists n', "response". cbn [fst snd].
    split; [reflexivity|]. split; [exact Ho'|]. split; [exact Hnone'|].
    rewrite (names_bound_missing "response" mr response_imports st2 n');
      [|apply response_aliases_NoDup| |exact Fr].
    + pose proof (import_module_globals L "response"
        (names_bound "builders" mb builders_imports st1) n' (Hk n' Hl) Hnr)
        as H. rewrite Hr in H. cbn [fst] in H. rewrite H.
      rewrite names_bound_other by done. by apply H1.
    + intros n0 a0 Hin0. by destruct (response_name_apart n0 a0 Hin0).
Qed.

Lemma missing_symbol_fails_witness :
  ∃ n' c,
    (__init__ Example.L_renamed Example.st0).2
    = inl (ImportError n' (resolve_name c)) ∧
    origin n' = Some c ∧
    mod_dict (pick (Example.builders_at 1100)
                (Example.response_renamed_at 1700) c) !! n' = None ∧
    globals (__init__ Example.L_renamed Example.st0).1 !! n'
    = globals Example.st0 !! n'.
Proof.
  apply (missing_symbol_fails Example.L_renamed Example.st0
           (import_module Example.L_renamed "builders" Example.st0).1
           (import_module Example.L_renamed "response"
              (from_import Example.L_renamed "builders" builders_imports
                 Example.st0).1).1
           (Example.builders_at 1100) (Example.response_renamed_at 1700)
           "QueryResponseItem").
  - apply ExampleFacts.tame_keeps_listed;
      [apply ExampleFacts.tame_builders_body
      |apply ExampleFacts.tame_response_renamed_body].
  - vm_compute. reflexivity.
  - vm_compute. reflexivity.
  - right. split; vm_compute; reflexivity.
Defined.

(** C7, as stated, fails: with both submodules already in the module
    cache, the import into a fresh package namespace succeeds and leaves
    [builders] and [response] unbound. *)
Lemma cached_submodules_not_bound :
  (__init__ Example.L Example.st_cached).2 = inr tt ∧
  globals (__init__ Example.L Example.st_cached).1 !! "builders" = None ∧
  globals (__init__ Example.L Example.st_cached).1 !! "response" = None.
Proof. vm_compute. repeat split; reflexivity. Qed.

(** C7, amended.  When the package namespace and the module cache agree
    on the two submodules beforehand, as they do when neither is cached,
    and executing the submodules keeps them in agreement, only adds to the
    cache and leaves the re-exported names alone, then after a successful
    import [builders] and [response] are bound in the package namespace to
    the cached submodule objects; neither is one of the nine listed names,
    so the namespace holds more than those nine. *)
Theorem submodules_bound_on_package (L : loader) (st : state) :
  keeps_agreement L → cache_grows L → keeps_listed L →
  agree st →
  (__init__ L st).2 = inr tt →
  (∃ mb mr,
     sys_modules (__init__ L st).1 !! resolve_name "builders"
       = Some (Some mb) ∧
     sys_modules (__init__ L st).1 !! resolve_name "response"
       = Some (Some mr) ∧
     globals (__init__ L st).1 !! "builders" = Some (mod_id mb) ∧
     globals (__init__ L st).1 !! "response" = Some (mod_id mr)) ∧
  ("builders" ∉ listed_names) ∧ ("response" ∉ listed_names) ∧
  list_to_set listed_names ⊂ dom (globals (__init__ L st).1).
Proof.
  intros Ha Hg Hk Hag Hok.
  pose proof (init_agree L st Ha Hag) as Hfin.
  destruct (init_success L st Hok)
    as (st1 & mb & st2 & mr & Hb & Fb & Hr & Fr & Hrun).
  rewrite Hrun in *. cbn [fst] in *.
  pose proof (final_cached_builders L st st1 st2 mb mr Hb Hr Hg) as Cb.
  pose proof (final_cached_response L st1 st2 mb mr Hr) as Cr.
  pose proof (Hfin "builders" mb (or_introl eq_refl) Cb) as Gb.
  pose proof (Hfin "response" mr (or_intror eq_refl) Cr) as Gr.
  split; [by exists mb, mr|]. split; [compute_done|]. split; [compute_done|].
  split.
  - intros k Hin. apply elem_of_list_to_set in Hin. apply elem_of_dom.
    apply listed_origin in Hin as [Ho|Ho].
    + destruct (final_origin L st st1 st2 mb mr Hb Fb Hr Fr k _ Hk Hg Ho)
        as (v & _ & _ & Hv). eauto.
    + destruct (final_origin L st st1 st2 mb mr Hb Fb Hr Fr k _ Hk Hg Ho)
        as (v & _ & _ & Hv). eauto.
  - intros Hsub.
    assert ("builders" ∈@{gset string} list_to_set listed_names) as Hin.
    { apply Hsub. apply elem_of_dom. eauto. }
    revert Hin. compute_done.
Qed.

Lemma submodules_bound_on_package_witness :
  (∃ mb mr,
     sys_modules (__init__ Example.L Example.st0).1 !! resolve_name "builders"
       = Some (Some mb) ∧
     sys_modules (__init__ Example.L Example.st0).1 !! resolve_name "response"
       = Some (Some mr) ∧
     globals (__init__ Example.L Example.st0).1 !! "builders"
       = Some (mod_id mb) ∧
     globals (__init__ Example.L Example.st0).1 !! "response"
       = Some (mod_id mr)) ∧
  ("builders" ∉ listed_names) ∧ ("response" ∉ listed_names) ∧
  list_to_set listed_names ⊂ dom (globals (__init__ Example.L Example.st0).1).
Proof.
  apply (submodules_bound_on_package Example.L Example.st0).
  - apply ExampleFacts.tame_keeps_agreement;
      [apply ExampleFacts.tame_builders_body
      |apply ExampleFacts.tame_response_body].
  - apply ExampleFacts.tame_cache_grows;
      [apply ExampleFacts.tame_builders_body
      |apply ExampleFacts.tame_response_body].
  - apply ExampleFacts.tame_keeps_listed;
      [apply ExampleFacts.tame_builders_body
      |apply ExampleFacts.tame_response_body].
  - apply ExampleFacts.agree_st0.
  - vm_compute. reflexivity.
Defined.

(** C9, as stated, fails: with both submodules already in the module
    cache, a wildcard import after a successful import into a fresh
    package namespace exports neither [builders] nor [response]. *)
Lemma wildcard_omits_cached_submodules :
  (__init__ Example.L Example.st_cached).2 = inr tt ∧
  is_Some (import_star (globals (__init__ Example.L Example.st_cached).1)) ∧
  ∀ ns, import_star (globals (__init__ Example.L Example.st_cached).1)
        = Some ns →
        ns !! "builders" = None ∧ ns !! "response" = None.
Proof.
  split; [vm_compute; reflexivity|]. split; [vm_compute; eauto|].
  intros ns Hns. vm_compute in Hns. injection Hns as <-.
  vm_compute. split; reflexivity.
Qed.

(** C9, amended.  The body binds no [__all__], and every import is of the
    form [X as X] with a public name.  When the namespace has no [__all__]
    beforehand and agrees with the module cache on the two submodules, and
    executing the submodules keeps that, only adds to the cache and leaves
    the re-exported names and [__all__] alone, then after a successful
    import a wildcard import of the package yields every public binding of
    the package namespace, among them the nine names and [builders] and
    [response]. *)
Theorem wildcard_import_exports (L : loader) (st : state) :
  keeps_listed L → keeps L "__all__" → keeps_agreement L → cache_grows L →
  agree st → globals st !! "__all__" = None →
  (__init__ L st).2 = inr tt →
  Forall (λ p, p.1 = p.2 ∧ is_public p.2 = true ∧ p.2 ≠ "__all__")
         (builders_imports ++ response_imports) ∧
  globals (__init__ L st).1 !! "__all__" = None ∧
  ∃ ns, import_star (globals (__init__ L st).1) = Some ns ∧
        (∀ k, ns !! k = if is_public k then globals (__init__ L st).1 !! k
                        else None) ∧
        (∀ k, k ∈ listed_names ∨ k = "builders" ∨ k = "response" →
              is_Some (ns !! k)).
Proof.
  intros Hk Hall Ha Hg Hag Hnone Hok. split.
  { repeat constructor; compute_done. }
  assert (globals (__init__ L st).1 !! "__all__" = None) as Hall'.
  { rewrite init_globals_other; [done|compute_done..|done]. }
  split; [exact Hall'|].
  unfold import_star. rewrite Hall'. eexists. split; [reflexivity|].
  assert (∀ k, filter (λ kv : string * loc, is_public kv.1 = true)
                 (globals (__init__ L st).1) !! k
               = if is_public k then globals (__init__ L st).1 !! k
                 else None) as Hfilter.
  { intros k. destruct (is_public k) eqn:Hp.
    - destruct (globals (__init__ L st).1 !! k) as [v|] eqn:E.
      + by apply map_lookup_filter_Some.
      + apply map_lookup_filter_None. left. exact E.
    - apply map_lookup_filter_None. right. intros v _. simpl. congruence. }
  split; [exact Hfilter|].
  intros k Hin. rewrite Hfilter, (public_names k Hin).
  pose proof (init_agree L st Ha Hag) as Hfin.
  destruct (init_success L st Hok)
    as (st1 & mb & st2 & mr & Hb & Fb & Hr & Fr & Hrun).
  rewrite Hrun in *. cbn [fst] in *.
  destruct Hin as [Hin|[-> | ->]].
  - apply listed_origin in Hin as [Ho|Ho];
      destruct (final_origin L st st1 st2 mb mr Hb Fb Hr Fr k _ Hk Hg Ho)
        as (v & _ & _ & Hv); eauto.
  - rewrite (Hfin "builders" mb (or_introl eq_refl)); [eauto|].
    by apply (final_cached_builders L st st1 st2 mb mr Hb Hr Hg).
  - rewrite (Hfin "response" mr (or_intror eq_refl)); [eauto|].
    by apply (final_cached_response L st1 st2 mb mr Hr).
Qed.

Lemma wildcard_import_exports_witness :
  Forall (λ p, p.1 = p.2 ∧ is_public p.2 = true ∧ p.2 ≠ "__all__")
         (builders_imports ++ response_imports) ∧
  globals (__init__ Example.L Example.st0).1 !! "__all__" = None ∧
  ∃ ns, import_star (globals (__init__ Example.L Example.st0).1) = Some ns ∧
        (∀ k, ns !! k = if is_public k
                        then globals (__init__ Example.L Example.st0).1 !! k
                        else None) ∧
        (∀ k, k ∈ listed_names ∨ k = "builders" ∨ k = "response" →
              is_Some (ns !! k)).
Proof.
  apply (wildcard_import_exports Example.L Example.st0).
  - apply ExampleFacts.tame_keeps_listed;
      [apply ExampleFacts.tame_builders_body
      |apply ExampleFacts.tame_response_body].
  - apply ExampleFacts.tame_keeps;
      [apply ExampleFacts.tame_builders_body
      |apply ExampleFacts.tame_response_body|compute_done].
  - apply ExampleFacts.tame_keeps_agreement;
      [apply ExampleFacts.tame_builders_body
      |apply ExampleFacts.tame_response_body].
  - apply ExampleFacts.tame_cache_grows;
      [apply ExampleFacts.tame_builders_body
      |apply ExampleFacts.tame_response_body].
  - apply ExampleFacts.agree_st0.
  - vm_compute. reflexivity.
  - vm_compute. reflexivity.
Defined.

(** C2, as stated, fails: after a successful import into a fresh package
    namespace the public names are not just the nine. *)
Lemma exposed_not_only_listed :
  (__init__ Example.L Example.st0).2 = inr tt ∧
  exposed (globals (__init__ Example.L Example.st0).1)
  ≠ list_to_set listed_names.
Proof.
  split; [vm_compute; reflexivity|]. intros Heq.
  assert ("builders" ∈ exposed (globals (__init__ Example.L Example.st0).1))
    as Hin by compute_done.
  rewrite Heq in Hin. revert Hin. compute_done.
Qed.

(** C2, amended.  The targets of the two import statements are exactly the
    nine listed names, and after a successful import, with submodules
    whose execution leaves those names alone, all nine are public names of
    the package root.  Beyond them the import system may set [builders]
    and [response] and the execution of a submodule may bind further
    names; every other name is public at the package root after the
    import exactly when it was before. *)
Theorem exposed_names_after_import (L : loader) (st : state) :
  keeps_listed L →
  (__init__ L st).2 = inr tt →
  builders_imports.*2 ++ response_imports.*2 = listed_names ∧
  NoDup listed_names ∧
  list_to_set listed_names ⊆ exposed (globals (__init__ L st).1) ∧
  ∀ k, k ∉ listed_names → k ≠ "builders" → k ≠ "response" → keeps L k →
       (k ∈ exposed (globals (__init__ L st).1) ↔ k ∈ exposed (globals st)).
Proof.
  intros Hk Hok. split; [reflexivity|]. split; [compute_done|]. split.
  - destruct (init_success L st Hok)
      as (st1 & mb & st2 & mr & Hb & Fb & Hr & Fr & ->). cbn [fst].
    apply elem_of_subseteq. intros k Hin. apply elem_of_list_to_set in Hin.
    unfold exposed. rewrite elem_of_filter, elem_of_dom.
    split; [apply public_names; by left|].
    apply listed_origin in Hin as [Ho|Ho].
    + apply origin_builders in Ho.
      destruct (final_builders_name L st1 st2 mb mr Fb Hr k k Hk Ho)
        as [-> H]. exact H.
    + apply origin_response in Ho.
      destruct (final_response_name st2 mr Fr k k Ho) as [-> H]. exact H.
  - intros k Hl Hb Hr Hkeep. unfold exposed.
    rewrite !elem_of_filter, !elem_of_dom.
    by rewrite init_globals_other.
Qed.

Lemma exposed_names_after_import_witness :
  builders_imports.*2 ++ response_imports.*2 = listed_names ∧
  NoDup listed_names ∧
  list_to_set listed_names
    ⊆ exposed (globals (__init__ Example.L Example.st0).1) ∧
  ∀ k, k ∉ listed_names → k ≠ "builders" → k ≠ "response" →
       keeps Example.L k →
       (k ∈ exposed (globals (__init__ Example.L Example.st0).1) ↔
        k ∈ exposed (globals Example.st0)).
Proof.
  apply (exposed_names_after_import Example.L Example.st0).
  - apply ExampleFacts.tame_keeps_listed;
      [apply ExampleFacts.tame_builders_body
      |apply ExampleFacts.tame_response_body].
  - vm_compute. reflexivity.
Defined.

(** C6, as stated, fails: the import leaves state beyond the bindings of
    the re-exported names, namely a binding of [builders], which is not
    one of them, and new entries in the module cache. *)
Lemma import_touches_more_than_listed :
  ("builders" ∉ listed_names) ∧
  globals Example.st0 !! "builders" = None ∧
  globals (__init__ Example.L Example.st0).1 !! "builders"
  = Some 1100%positive ∧
  sys_modules Example.st0 !! resolve_name "builders" = None ∧
  sys_modules (__init__ Example.L Example.st0).1 !! resolve_name "builders"
  = Some (Some (Example.builders_at 1100)).
Proof.
  split; [compute_done|]. repeat split; vm_compute; reflexivity.
Qed.

(** C6, amended.  Whatever its outcome, running the body changes the
    package namespace only at the nine listed names and at the two
    submodule names, and the module cache only at the entries of the two
    submodules, apart from what executing the submodules itself changes;
    when that execution only adds to the cache, no cached entry is
    replaced or removed; and when it also leaves the re-exported names
    alone, a listed name whose binding changed is bound to what the import
    yields for it on its origin submodule as cached, not to a new
    object. *)
Theorem import_frame (L : loader) (st : state) :
  (∀ k, k ∉ listed_names → k ≠ "builders" → k ≠ "response" → keeps L k →
        globals (__init__ L st).1 !! k = globals st !! k) ∧
  (∀ f, f ≠ resolve_name "builders" → f ≠ resolve_name "response" →
        keeps_entry L f →
        sys_modules (__init__ L st).1 !! f = sys_modules st !! f) ∧
  (cache_grows L → sys_modules st ⊆ sys_modules (__init__ L st).1) ∧
  (keeps_listed L → cache_grows L →
   ∀ k c, origin k = Some c →
     globals (__init__ L st).1 !! k = globals st !! k ∨
     ∃ m v, sys_modules (__init__ L st).1 !! resolve_name c
              = Some (Some m) ∧
            attr_of (sys_modules (__init__ L st).1) c m k = Some v ∧
            globals (__init__ L st).1 !! k = Some v).
Proof.
  split; [intros k; apply init_globals_other|].
  split; [intros f; apply init_entry_other|].
  split; [apply init_modules_mono|].
  intros Hk Hg k c. by apply init_bindings_genuine.
Qed.

(** * Further properties of the module body *)

(** ** Where a failing run stops *)

(** X3.  When [builders] is obtained with all its names but loading
    [response] fails, the body ends in that failure after the first
    statement has taken effect: the four [builders] names are bound to the
    submodule's objects and [builders] stays cached, while [response] is
    neither cached nor bound and the five [response] names keep the
    bindings they had.  The submodules are assumed to leave the
    re-exported names and the name [response] alone and only to add to the
    cache. *)
Theorem response_failure_keeps_builders (L : loader) (st st1 st2 : state)
    (mb : py_module) (e : exn) :
  keeps_listed L → keeps L "response" → cache_grows L →
  import_module L "builders" st = (st1, inr mb) →
  defines mb builders_imports.*1 →
  sys_modules st1 !! resolve_name "response" = None →
  L (resolve_name "response") (from_import L "builders" builders_imports st).1
  = (st2, inl e) →
  (__init__ L st).2 = inl e ∧
  (∀ k, k ∈ builders_imports.*2 →
        is_Some (mod_dict mb !! k) ∧
        globals (__init__ L st).1 !! k = mod_dict mb !! k) ∧
  sys_modules (__init__ L st).1 !! resolve_name "builders" = Some (Some mb) ∧
  sys_modules (__init__ L st).1 !! resolve_name "response" = None ∧
  (∀ k, k = "response" ∨ k ∈ response_imports.*2 →
        globals (__init__ L st).1 !! k = globals st !! k).
Proof.
  intros Hk Hkr Hg Hb Db Cr Hr.
  pose proof (defines_first_missing "builders" mb (sys_modules st1)
                builders_imports Db) as Fb.
  rewrite (first_statement_run L st st1 mb Hb Fb) in Hr. cbn [fst] in Hr.
  set (s1 := names_bound "builders" mb builders_imports st1) in *.
  assert (import_module L "response" s1 =
            (uncache (resolve_name "response") st2, inl e)) as Hr'.
  { rewrite import_module_run. unfold s1. rewrite names_bound_modules, Cr.
    fold s1. by rewrite Hr. }
  rewrite init_cases, Hb, Fb. fold s1. rewrite Hr'. cbn [fst snd].
  split; [reflexivity|].
  assert (∀ k, keeps L k → k ≠ "response" →
               globals (uncache (resolve_name "response") st2) !! k
               = globals s1 !! k) as H2.
  { intros k Hkk Hne.
    pose proof (import_module_globals L "response" s1 k Hkk Hne) as H.
    by rewrite Hr' in H. }
  assert (∀ k, keeps L k → k ≠ "builders" →
               globals st1 !! k = globals st !! k) as H1.
  { intros k Hkk Hne.
    pose proof (import_module_globals L "builders" st k Hkk Hne) as H.
    by rewrite Hb in H. }
  split; [|split; [|split]].
  - intros k ([n a] & -> & Hin)%list_elem_of_fmap. cbn [snd].
    destruct (builders_name_apart n a Hin) as (-> & Hl & _ & _ & Har).
    rewrite H2 by auto.
    destruct (names_bound_in "builders" mb builders_imports st1 a a
                builders_aliases_NoDup Fb Hin) as [Hv _].
    assert (is_Some (mod_dict mb !! a)) as [v Hd].
    { unfold defines in Db. rewrite Forall_forall in Db. apply Db.
      by apply (list_elem_of_fmap_2 fst _ (a, a)). }
    split; [eauto|]. unfold s1. rewrite Hv, Hd.
    by apply attr_of_defined.
  - pose proof (import_module_mono L "response" s1 Hg) as Hm.
    rewrite Hr' in Hm. eapply lookup_weaken; [|exact Hm].
    unfold s1. rewrite names_bound_modules.
    by apply (obtained_cached L _ _ _ _ Hb).
  - cbn [uncache sys_modules]. apply lookup_delete_eq.
  - intros k [->|([n a] & -> & Hin)%list_elem_of_fmap].
    + (* the name [response]: no load touches it, and this import did not
         get to bind it *)
      pose proof (import_module_run L "response" s1) as Hrun.
      unfold s1 in Hrun at 2. rewrite names_bound_modules, Cr in Hrun.
      fold s1 in Hrun. rewrite Hr in Hrun. rewrite Hrun in Hr'.
      cbn [uncache globals].
      transitivity (globals s1 !! "response").
      { pose proof (Hkr (resolve_name "response") s1) as H.
        by rewrite Hr in H. }
      unfold s1. rewrite names_bound_other by compute_done.
      apply H1; [done|compute_done].
    + destruct (response_name_apart n a Hin) as (_ & Hl & Hnb & Hab & Har).
      cbn [snd]. rewrite H2 by auto.
      unfold s1. rewrite names_bound_other by done. by apply H1; auto.
Qed.

Lemma response_failure_keeps_builders_witness :
  (__init__ Example.L_no_response Example.st0).2
  = inl (ModuleNotFoundError "mosaicolabs.models.query.response") ∧
  (∀ k, k ∈ builders_imports.*2 →
        is_Some (mod_dict (Example.builders_at 1100) !! k) ∧
        globals (__init__ Example.L_no_response Example.st0).1 !! k
        = mod_dict (Example.builders_at 1100) !! k) ∧
  sys_modules (__init__ Example.L_no_response Example.st0).1
    !! resolve_name "builders" = Some (Some (Example.builders_at 1100)) ∧
  sys_modules (__init__ Example.L_no_response Example.st0).1
    !! resolve_name "response" = None ∧
  (∀ k, k = "response" ∨ k ∈ response_imports.*2 →
        globals (__init__ Example.L_no_response Example.st0).1 !! k
        = globals Example.st0 !! k).
Proof.
  apply (response_failure_keeps_builders Example.L_no_response Example.st0
           (import_module Example.L_no_response "builders" Example.st0).1
           (from_import Example.L_no_response "builders" builders_imports
              Example.st0).1).
  - apply ExampleFacts.tame_keeps_listed;
      [apply ExampleFacts.tame_builders_body|apply ExampleFacts.tame_absent].
  - apply ExampleFacts.tame_keeps;
      [apply ExampleFacts.tame_builders_body|apply ExampleFacts.tame_absent
      |compute_done].
  - apply ExampleFacts.tame_cache_grows;
      [apply ExampleFacts.tame_builders_body|apply ExampleFacts.tame_absent].
  - vm_compute. reflexivity.
  - apply ExampleFacts.defines_builders_at.
  - vm_compute. reflexivity.
  - vm_compute. reflexivity.
Defined.

(** X4.  When the obtained [builders] lacks one of its names and the cache
    has no entry to fall back on, the body ends in the [ImportError] for
    the first such name in the order of the statement: the names listed
    before it are bound to the submodule's objects, that name, the names
    after it and the five [response] names keep the bindings they had, and
    nothing further is imported.  The submodules are assumed to leave the
    re-exported names alone. *)
Theorem builders_missing_name_stops_import (L : loader) (st st1 : state)
    (mb : py_module) (pre post : list (string * string)) (n a : string) :
  keeps_listed L →
  import_module L "builders" st = (st1, inr mb) →
  builders_imports = pre ++ (n, a) :: post →
  defines mb pre.*1 →
  attr_of (sys_modules st1) "builders" mb n = None →
  (__init__ L st).2 = inl (ImportError n (resolve_name "builders")) ∧
  (∀ k, k ∈ pre.*2 →
        is_Some (mod_dict mb !! k) ∧
        globals (__init__ L st).1 !! k = mod_dict mb !! k) ∧
  (∀ k, k ∈ a :: post.*2 ∨ k ∈ response_imports.*2 →
        globals (__init__ L st).1 !! k = globals st !! k) ∧
  sys_modules (__init__ L st).1 = sys_modules st1.
Proof.
  intros Hk Hb Hsplit Dpre Hn.
  pose proof (defines_first_missing "builders" mb (sys_modules st1) pre Dpre)
    as Fpre.
  pose proof builders_aliases_NoDup as Hnd. rewrite Hsplit in Hnd.
  destruct (names_bound_split "builders" mb pre n a post st1 Hnd Fpre Hn)
    as (Fm & Hbound & Hrest).
  assert (∀ k, k ∈ listed_names → globals st1 !! k = globals st !! k) as H1.
  { intros k Hl.
    pose proof (import_module_globals L "builders" st k (Hk k Hl)) as H.
    rewrite Hb in H. apply H. intros ->. revert Hl. compute_done. }
  rewrite init_cases, Hb, Hsplit, Fm. cbn [fst snd].
  split; [reflexivity|]. split; [|split; [|reflexivity]].
  - intros k ([n' a'] & -> & Hin)%list_elem_of_fmap. cbn [snd].
    assert ((n', a') ∈ builders_imports) as Hin'.
    { rewrite Hsplit. apply elem_of_app. by left. }
    destruct (builders_name_apart n' a' Hin') as (-> & _).
    assert (is_Some (mod_dict mb !! a')) as [v Hd].
    { unfold defines in Dpre. rewrite Forall_forall in Dpre. apply Dpre.
      by apply (list_elem_of_fmap_2 fst _ (a', a')). }
    split; [eauto|]. rewrite (Hbound a' a' Hin), Hd.
    by apply attr_of_defined.
  - intros k [Hin|([n' a'] & -> & Hin)%list_elem_of_fmap].
    + rewrite Hrest by done. apply H1.
      assert (k ∈ builders_imports.*2) as Hin'.
      { rewrite Hsplit, fmap_app. apply elem_of_app. by right. }
      rewrite <- aliases_listed. apply elem_of_app. by left.
    + destruct (response_name_apart n' a' Hin) as (_ & Hl & Hnb & _).
      cbn [snd]. rewrite <- Hsplit.
      rewrite names_bound_other by done. by apply H1.
Qed.

Lemma builders_missing_name_stops_import_witness :
  (__init__ Example.L_partial Example.st0).2
  = inl (ImportError "QueryOntologyCatalog" (resolve_name "builders")) ∧
  (∀ k, k ∈ [("QueryTopic", "QueryTopic");
             ("QuerySequence", "QuerySequence")].*2 →
        is_Some (mod_dict (Example.builders_partial_at 1100) !! k) ∧
        globals (__init__ Example.L_partial Example.st0).1 !! k
        = mod_dict (Example.builders_partial_at 1100) !! k) ∧
  (∀ k, k ∈ "QueryOntologyCatalog" :: [("Query", "Query")].*2 ∨
        k ∈ response_imports.*2 →
        globals (__init__ Example.L_partial Example.st0).1 !! k
        = globals Example.st0 !! k) ∧
  sys_modules (__init__ Example.L_partial Example.st0).1
  = sys_modules (import_module Example.L_partial "builders" Example.st0).1.
Proof.
  apply (builders_missing_name_stops_import Example.L_partial Example.st0).
  - apply ExampleFacts.tame_keeps_listed;
      [apply ExampleFacts.tame_builders_partial_body
      |apply ExampleFacts.tame_response_body].
  - vm_compute. reflexivity.
  - reflexivity.
  - repeat constructor; vm_compute; eauto.
  - vm_compute. reflexivity.
Defined.

(** X5.  When [builders] is complete and the obtained [response] lacks
    one of its names, with no cache entry to fall back on, the body ends
    in the [ImportError] for the first such name in the order of the
    statement; the [response] names listed before it are bound to the
    submodule's objects, and that name and the names after it keep the
    bindings they had.  The submodules are assumed to leave the
    re-exported names alone. *)
Theorem response_missing_name_is_first (L : loader) (st st1 st2 : state)
    (mb mr : py_module) (pre post : list (string * string)) (n a : string) :
  keeps_listed L →
  import_module L "builders" st = (st1, inr mb) →
  defines mb builders_imports.*1 →
  import_module L "response" (from_import L "builders" builders_imports st).1
  = (st2, inr mr) →
  response_imports = pre ++ (n, a) :: post →
  defines mr pre.*1 →
  attr_of (sys_modules st2) "response" mr n = None →
  (__init__ L st).2 = inl (ImportError n (resolve_name "response")) ∧
  (∀ k, k ∈ pre.*2 →
        is_Some (mod_dict mr !! k) ∧
        globals (__init__ L st).1 !! k = mod_dict mr !! k) ∧
  (∀ k, k ∈ a :: post.*2 →
        globals (__init__ L st).1 !! k = globals st !! k).
Proof.
  intros Hk Hb Db Hr Hsplit Dpre Hn.
  pose proof (defines_first_missing "builders" mb (sys_modules st1)
                builders_imports Db) as Fb.
  pose proof (defines_first_missing "response" mr (sys_modules st2) pre Dpre)
    as Fpre.
  rewrite (first_statement_run L st st1 mb Hb Fb) in Hr. cbn [fst] in Hr.
  pose proof response_aliases_NoDup as Hnd. rewrite Hsplit in Hnd.
  destruct (names_bound_split "response" mr pre n a post st2 Hnd Fpre Hn)
    as (Fm & Hbound & Hrest).
  rewrite init_cases, Hb, Fb, Hr, Hsplit, Fm. cbn [fst snd].
  split; [reflexivity|]. split.
  - intros k ([n' a'] & -> & Hin)%list_elem_of_fmap. cbn [snd].
    assert ((n', a') ∈ response_imports) as Hin'.
    { rewrite Hsplit. apply elem_of_app. by left. }
    destruct (response_name_apart n' a' Hin') as (-> & _).
    assert (is_Some (mod_dict mr !! a')) as [v Hd].
    { unfold defines in Dpre. rewrite Forall_forall in Dpre. apply Dpre.
      by apply (list_elem_of_fmap_2 fst _ (a', a')). }
    split; [eauto|]. rewrite (Hbound a' a' Hin), Hd.
    by apply attr_of_defined.
  - intros k Hin. rewrite Hrest by done.
    assert (k ∈ response_imports.*2) as Hin'.
    { rewrite Hsplit, fmap_app. apply elem_of_app. by right. }
    apply list_elem_of_fmap in Hin' as ([n' a'] & -> & Hin').
    destruct (response_name_apart n' a' Hin') as (_ & Hl & Hnb & Hab & Har).
    cbn [snd].
    pose proof (import_module_globals L "response"
      (names_bound "builders" mb builders_imports st1) a' (Hk a' Hl) Har) as H.
    rewrite Hr in H. cbn [fst] in H. rewrite H.
    rewrite names_bound_other by done.
    pose proof (import_module_globals L "builders" st a' (Hk a' Hl) Hab) as H'.
    by rewrite Hb in H'.
Qed.

Lemma response_missing_name_is_first_witness :
  (__init__ Example.L_renamed Example.st0).2
  = inl (ImportError "QueryResponseItem" (resolve_name "response")) ∧
  (∀ k, k ∈ [("QueryResponseItemSequence", "QueryResponseItemSequence");
             ("QueryResponseItemTopic", "QueryResponseItemTopic");
             ("TimestampRange", "TimestampRange")].*2 →
        is_Some (mod_dict (Example.response_renamed_at 1700) !! k) ∧
        globals (__init__ Example.L_renamed Example.st0).1 !! k
        = mod_dict (Example.response_renamed_at 1700) !! k) ∧
  (∀ k, k ∈ "QueryResponseItem" :: [("QueryResponse", "QueryResponse")].*2 →
        globals (__init__ Example.L_renamed Example.st0).1 !! k
        = globals Example.st0 !! k).
Proof.
  apply (response_missing_name_is_first Example.L_renamed Example.st0
           (import_module Example.L_renamed "builders" Example.st0).1
           (import_module Example.L_renamed "response"
              (from_import Example.L_renamed "builders" builders_imports
                 Example.st0).1).1
           (Example.builders_at 1100)).
  - apply ExampleFacts.tame_keeps_listed;
      [apply ExampleFacts.tame_builders_body
      |apply ExampleFacts.tame_response_renamed_body].
  - vm_compute. reflexivity.
  - apply ExampleFacts.defines_builders_at.
  - vm_compute. reflexivity.
  - reflexivity.
  - repeat constructor; vm_compute; eauto.
  - vm_compute. reflexivity.
Defined.

(** ** Importing with the submodules already cached *)

(** X6.  Running the body again after a successful import, as a reload of
    the package does, succeeds and changes nothing; the submodules are
    taken from the cache, so the outcome is the same even when they could
    no longer be loaded.  The submodules are assumed, in the first import,
    to leave the re-exported names alone and only to add to the cache. *)
Theorem reimport_changes_nothing (L L' : loader) (st : state) :
  keeps_listed L → cache_grows L →
  (__init__ L st).2 = inr tt →
  __init__ L' (__init__ L st).1 = ((__init__ L st).1, inr tt).
Proof.
  intros Hk Hg Hok.
  destruct (init_success L st Hok)
    as (st1 & mb & st2 & mr & Hb & Fb & Hr & Fr & ->).
  cbn [fst].
  set (F := names_bound "response" mr response_imports st2).
  pose proof (final_cached_builders L st st1 st2 mb mr Hb Hr Hg) as Cb.
  pose proof (final_cached_response L st1 st2 mb mr Hr) as Cr.
  pose proof (final_cache_mono L st1 st2 mb mr Hr Hg) as Hm.
  fold F in Cb, Cr, Hm.
  assert (first_missing (sys_modules F) "builders" mb builders_imports = None)
    as Fb' by (by eapply first_missing_mono).
  assert (names_bound "builders" mb builders_imports F = F) as Hfix.
  { unfold names_bound at 1. rewrite bound_id; [done|exact Fb'|].
    intros n a Hin.
    destruct (final_builders_name L st1 st2 mb mr Fb Hr n a Hk Hin)
      as [Hv [v Hs]].
    fold F in Hv. rewrite Hv, Hs. symmetry. by eapply attr_of_mono. }
  assert (names_bound "response" mr response_imports F = F) as Hfix'.
  { unfold names_bound at 1. rewrite bound_id; [done|exact Fr|].
    intros n a Hin.
    by destruct (final_response_name st2 mr Fr n a Hin) as [Hv _]. }
  rewrite (init_ok L' F F mb F mr).
  - by rewrite Hfix'.
  - by apply import_module_cached.
  - exact Fb'.
  - rewrite Hfix. by apply import_module_cached.
  - exact Fr.
Qed.

Lemma reimport_changes_nothing_witness :
  __init__ Example.L_nothing (__init__ Example.L Example.st0).1
  = ((__init__ Example.L Example.st0).1, inr tt).
Proof.
  apply (reimport_changes_nothing Example.L Example.L_nothing Example.st0).
  - apply ExampleFacts.tame_keeps_listed;
      [apply ExampleFacts.tame_builders_body
      |apply ExampleFacts.tame_response_body].
  - apply ExampleFacts.tame_cache_grows;
      [apply ExampleFacts.tame_builders_body
      |apply ExampleFacts.tame_response_body].
  - vm_compute. reflexivity.
Defined.

(** X7.  When both submodules are already in the module cache, the body
    does not load them: its outcome does not depend on the loader, the
    cache is left exactly as it was, and the names [builders] and
    [response] keep whatever binding they had in the package namespace. *)
Theorem cached_submodules_not_reloaded (L L' : loader) (st : state)
    (mb mr : py_module) :
  sys_modules st !! resolve_name "builders" = Some (Some mb) →
  sys_modules st !! resolve_name "response" = Some (Some mr) →
  __init__ L st = __init__ L' st ∧
  sys_modules (__init__ L st).1 = sys_modules st ∧
  globals (__init__ L st).1 !! "builders" = globals st !! "builders" ∧
  globals (__init__ L st).1 !! "response" = globals st !! "response".
Proof.
  intros Cb Cr.
  assert (∀ L0, __init__ L0 st =
    match first_missing (sys_modules st) "builders" mb builders_imports with
    | Some n => (names_bound "builders" mb builders_imports st,
                 inl (ImportError n (resolve_name "builders")))
    | None =>
        (names_bound "response" mr response_imports
           (names_bound "builders" mb builders_imports st),
         match first_missing (sys_modules st) "response" mr response_imports
         with
         | Some n => inl (ImportError n (resolve_name "response"))
         | None => inr tt
         end)
    end) as Hrun.
  { intros L0. rewrite init_cases, (import_module_cached L0 _ _ _ Cb).
    destruct (first_missing _ _ _ builders_imports); [reflexivity|].
    by rewrite (import_module_cached L0 "response"
                  (names_bound "builders" mb builders_imports st) mr Cr). }
  rewrite (Hrun L), (Hrun L'). split; [reflexivity|].
  destruct (first_missing _ _ _ builders_imports); cbn [fst].
  - split; [reflexivity|].
    split; apply names_bound_other; compute_done.
  - split; [reflexivity|].
    split; rewrite !names_bound_other by compute_done; reflexivity.
Qed.

Lemma cached_submodules_not_reloaded_witness :
  __init__ Example.L Example.st_cached
  = __init__ Example.L_nothing Example.st_cached ∧
  sys_modules (__init__ Example.L Example.st_cached).1
  = sys_modules Example.st_cached ∧
  globals (__init__ Example.L Example.st_cached).1 !! "builders"
  = globals Example.st_cached !! "builders" ∧
  globals (__init__ Example.L Example.st_cached).1 !! "response"
  = globals Example.st_cached !! "response".
Proof.
  apply (cached_submodules_not_reloaded Example.L Example.L_nothing
           Example.st_cached (Example.builders_at 200)
           (Example.response_at 300)).
  - vm_compute. reflexivity.
  - vm_compute. reflexivity.
Defined.

(** ** Importing again after a failure *)

(** X8.  After a run that obtained [builders] but failed to load
    [response], a new import of the package into another namespace, in an
    interpreter where [response] now loads, succeeds without loading
    [builders] again: the four [builders] names are bound to the objects
    of the module cached by the failed run, [response] is bound to the
    newly loaded module, and [builders] keeps whatever binding the new
    namespace had for it.  The failed load is assumed only to add to the
    cache, and the new load to leave the re-exported names and the name
    [builders] alone. *)
Theorem retry_reuses_cached_builders (L L' : loader) (st st1 st2 st3 : state)
    (g0 : namespace) (mb mr : py_module) (e : exn) :
  cache_grows L → keeps_listed L' → keeps L' "builders" →
  import_module L "builders" st = (st1, inr mb) →
  defines mb builders_imports.*1 →
  sys_modules st1 !! resolve_name "response" = None →
  L (resolve_name "response") (from_import L "builders" builders_imports st).1
  = (st2, inl e) →
  L' (resolve_name "response")
     (from_import L' "builders" builders_imports
        (State g0 (sys_modules (__init__ L st).1))).1
  = (st3, inr mr) →
  defines mr response_imports.*1 →
  let retry := __init__ L' (State g0 (sys_modules (__init__ L st).1)) in
  retry.2 = inr tt ∧
  (∀ k, k ∈ builders_imports.*2 → globals retry.1 !! k = mod_dict mb !! k) ∧
  (∀ k, k ∈ response_imports.*2 → globals retry.1 !! k = mod_dict mr !! k) ∧
  globals retry.1 !! "response" = Some (mod_id mr) ∧
  globals retry.1 !! "builders" = g0 !! "builders".
Proof.
  intros Hg Hk' Hkb Hb Db Cr Hr Hr' Dr retry. unfold retry. clear retry.
  pose proof (defines_first_missing "builders" mb (sys_modules st1)
                builders_imports Db) as Fb.
  rewrite (first_statement_run L st st1 mb Hb Fb) in Hr. cbn [fst] in Hr.
  (* the failed run *)
  assert (__init__ L st = (uncache (resolve_name "response") st2, inl e))
    as Hfail.
  { rewrite init_cases, Hb, Fb, import_module_run.
    rewrite names_bound_modules, Cr. by rewrite Hr. }
  rewrite Hfail in *. cbn [fst uncache sys_modules] in *.
  set (sm := delete (resolve_name "response") (sys_modules st2)) in *.
  assert (sm !! resolve_name "builders" = Some (Some mb)) as Cb.
  { unfold sm. rewrite lookup_delete_ne by apply submodules_distinct.
    eapply lookup_weaken.
    - by apply (obtained_cached L _ _ _ _ Hb).
    - pose proof (Hg (resolve_name "response")
        (names_bound "builders" mb builders_imports st1)) as Hm.
      by rewrite Hr in Hm. }
  assert (sm !! resolve_name "response" = None) as Cr'
    by apply lookup_delete_eq.
  (* the retry *)
  pose proof (import_module_cached L' "builders" (State g0 sm) mb Cb) as Hb'.
  pose proof (defines_first_missing "builders" mb sm builders_imports Db)
    as Fb'.
  rewrite (first_statement_run L' _ _ mb Hb' Fb') in Hr'. cbn [fst] in Hr'.
  set (s1 := names_bound "builders" mb builders_imports (State g0 sm)) in *.
  set (s2 := State (<["response" := mod_id mr]> (globals st3))
                   (<[resolve_name "response" := Some mr]> (sys_modules st3))).
  assert (import_module L' "response" s1 = (s2, inr mr)) as Hr2.
  { rewrite import_module_run. unfold s1 at 1.
    rewrite names_bound_modules. cbn [sys_modules]. rewrite Cr'.
    by rewrite Hr'. }
  pose proof (defines_first_missing "response" mr (sys_modules s2)
                response_imports Dr) as Fr.
  rewrite (init_ok L' _ _ mb s2 mr Hb' Fb' Hr2 Fr). cbn [fst snd].
  split; [reflexivity|].
  assert (∀ k, keeps L' k → k ≠ "response" →
               globals s2 !! k = globals s1 !! k) as H2.
  { intros k Hkk Hne. unfold s2. cbn [globals].
    rewrite lookup_insert_ne by done.
    pose proof (Hkk (resolve_name "response") s1) as H.
    by rewrite Hr' in H. }
  split; [|split; [|split]].
  - intros k ([n a] & -> & Hin)%list_elem_of_fmap. cbn [snd].
    destruct (builders_name_apart n a Hin) as (-> & Hl & Hnr & _ & Har).
    rewrite names_bound_other by done. rewrite H2 by auto.
    destruct (names_bound_in "builders" mb builders_imports (State g0 sm)
                a a builders_aliases_NoDup Fb' Hin) as [Hv [v Hs]].
    fold s1 in Hv. rewrite Hv.
    assert (is_Some (mod_dict mb !! a)) as [v' Hd].
    { unfold defines in Db. rewrite Forall_forall in Db. apply Db.
      by apply (list_elem_of_fmap_2 fst _ (a, a)). }
    rewrite Hd. by apply attr_of_defined.
  - intros k ([n a] & -> & Hin)%list_elem_of_fmap. cbn [snd].
    destruct (response_name_apart n a Hin) as (-> & _).
    destruct (names_bound_in "response" mr response_imports s2
                a a response_aliases_NoDup Fr Hin) as [Hv _].
    rewrite Hv.
    assert (is_Some (mod_dict mr !! a)) as [v' Hd].
    { unfold defines in Dr. rewrite Forall_forall in Dr. apply Dr.
      by apply (list_elem_of_fmap_2 fst _ (a, a)). }
    rewrite Hd. by apply attr_of_defined.
  - rewrite names_bound_other by compute_done.
    unfold s2. cbn [globals]. apply lookup_insert_eq.
  - rewrite names_bound_other by compute_done.
    rewrite H2 by (done || compute_done).
    unfold s1. by rewrite names_bound_other by compute_done.
Qed.

Lemma retry_reuses_cached_builders_witness :
  let retry :=
    __init__ Example.L
      (State (globals Example.st0)
         (sys_modules (__init__ Example.L_no_response Example.st0).1)) in
  retry.2 = inr tt ∧
  (∀ k, k ∈ builders_imports.*2 →
        globals retry.1 !! k = mod_dict (Example.builders_at 1100) !! k) ∧
  (∀ k, k ∈ response_imports.*2 →
        globals retry.1 !! k = mod_dict (Example.response_at 1500) !! k) ∧
  globals retry.1 !! "response" = Some (mod_id (Example.response_at 1500)) ∧
  globals retry.1 !! "builders" = globals Example.st0 !! "builders".
Proof.
  apply (retry_reuses_cached_builders Example.L_no_response Example.L
           Example.st0
           (import_module Example.L_no_response "builders" Example.st0).1
           (from_import Example.L_no_response "builders" builders_imports
              Example.st0).1
           (from_import Example.L "builders" builders_imports
              (State (globals Example.st0)
                 (sys_modules
                    (__init__ Example.L_no_response Example.st0).1))).1
           (globals Example.st0) (Example.builders_at 1100)
           (Example.response_at 1500)
           (ModuleNotFoundError "mosaicolabs.models.query.response")).
  - apply ExampleFacts.tame_cache_grows;
      [apply ExampleFacts.tame_builders_body|apply ExampleFacts.tame_absent].
  - apply ExampleFacts.tame_keeps_listed;
      [apply ExampleFacts.tame_builders_body
      |apply ExampleFacts.tame_response_body].
  - apply ExampleFacts.tame_keeps;
      [apply ExampleFacts.tame_builders_body
      |apply ExampleFacts.tame_response_body|compute_done].
  - vm_compute. reflexivity.
  - apply ExampleFacts.defines_builders_at.
  - vm_compute. reflexivity.
  - vm_compute. reflexivity.
  - vm_compute. reflexivity.
  - apply ExampleFacts.defines_response_at.
Defined.
